(** * PaperDeck front end: session and paper-review state machines

    A shallow embedding of the client-side logic of PaperDeck
    (frontend/src/auth/AuthProvider.tsx in its two versions,
    frontend/src/pages/HomePage.tsx, RegisterPage.tsx and AdminPage.tsx,
    frontend/src/lib/apiConfig.ts), followed by the properties of the
    specification that concern it.

    Conventions.
    - A React component's [useState] cells are the fields of a record; a
      handler is a function from the record to the record after the handler
      ran, together with what it asked of its surroundings (network
      requests, cache invalidations, navigation).
    - [localStorage] is a finite map from keys to strings.
    - An [await]ed call of the generated API client either yields a value or
      throws; the collaborator is a record of functions giving the outcome of
      each call.
    - State setters called one after the other in one continuation are
      applied together (React batches them), so one continuation is one
      transition. *)

From Stdlib Require Import ZArith NArith List Bool Lia.
From stdpp Require Import base option list strings pretty gmap.

Local Open Scope Z_scope.

(* ===================================================================== *)
(** * The generated API client, as far as the pages use it *)
(* ===================================================================== *)

Module Api.

(** [Response]: the part of a fetch response the pages read. [text] is
    [None] when reading the body rejects. *)
Record Response := mkResponse {
  status : Z;
  text : option string
}.

(** What a JavaScript [throw] can carry here: the client's
    [ResponseError] (a response with a non-2xx status), any other [Error]
    (a transport failure, or an error made by the application), or a value
    that is not an [Error] at all. *)
Inductive Thrown :=
| ResponseError (response : Response) (message : string)
| Error (message : string)
| NotAnError.

(** Outcome of an awaited call. *)
Inductive Result (A : Type) :=
| Ok (a : A)
| Throw (e : Thrown).
Arguments Ok {A} a.
Arguments Throw {A} e.

Record User := mkUser { userId : Z; username : string }.
Record AuthToken := mkAuthToken { token : string; tokenType : string }.
Record LoginPayload := mkLoginPayload { lp_username : string; lp_password : string }.
Record RegisterPayload := mkRegisterPayload { rp_username : string; rp_password : string }.

Inductive PaperStatus := Read | Liked.

Record Paper := mkPaper {
  id : Z;
  conferenceName : string;
  year : Z;
  title : string;
  url : option string;
  authors : option string;
  abstractText : option string
}.

(** [error instanceof ResponseError && error.response.status === n] *)
Definition isResponseErrorWithStatus (n : Z) (e : Thrown) : bool :=
  match e with
  | ResponseError r _ => status r =? n
  | _ => false
  end.

(** The Auth API collaborator. [getMe] is sent with the bearer token that
    the configuration's [accessToken] function reads at call time. *)
Record AuthApi := mkAuthApi {
  login : LoginPayload -> Result AuthToken;
  getMe : string -> Result User;
  register : RegisterPayload -> Result User
}.

#[global] Instance PaperStatus_eq_dec : EqDecision PaperStatus.
Proof. solve_decision. Defined.

End Api.

Import Api.

(* ===================================================================== *)
(** * frontend/src/lib/apiConfig.ts *)
(* ===================================================================== *)

Module ApiConfig.

Definition JWT_STORAGE_KEY : string := "jwt_token".

(** [accessToken: () => localStorage.getItem(JWT_STORAGE_KEY) || ''] *)
Definition accessToken (localStorage : gmap string string) : string :=
  default "" (localStorage !! JWT_STORAGE_KEY).

End ApiConfig.

Import ApiConfig.

(* ===================================================================== *)
(** * frontend/src/auth/AuthProvider.tsx *)
(* ===================================================================== *)

(** What both versions of the provider share: the three state cells, the
    storage they write to, and [logout] and [register]. *)
Module AuthCommon.

Record Session := mkSession {
  localStorage : gmap string string;
  isAuthenticated : bool;
  user : option User;
  isLoading : bool
}.

(** The provider as first rendered: [useState(false)], [useState(null)],
    [useState(true)], over whatever the browser has stored. *)
Definition initial (stored : gmap string string) : Session :=
  {| localStorage := stored; isAuthenticated := false; user := None;
     isLoading := true |}.

Definition logout (s : Session) : Session :=
  {| localStorage := delete JWT_STORAGE_KEY (localStorage s);
     isAuthenticated := false;
     user := None;
     isLoading := isLoading s |}.

Definition register (api : AuthApi) (payload : RegisterPayload) (s : Session)
  : Session * Result User :=
  (s, Api.register api payload).

(** The message both versions of [login] throw on a 401. *)
Definition InvalidCredentials : Thrown :=
  Error "ユーザー名またはパスワードが正しくありません".

(** [if (token)]: a stored string counts when it is not empty. *)
Definition truthy (o : option string) : bool :=
  match o with
  | Some t => negb (String.eqb t "")
  | None => false
  end.

Definition setIsLoading (b : bool) (s : Session) : Session :=
  {| localStorage := localStorage s; isAuthenticated := isAuthenticated s;
     user := user s; isLoading := b |}.

Definition setItem (k v : string) (s : Session) : Session :=
  {| localStorage := <[k := v]> (localStorage s);
     isAuthenticated := isAuthenticated s;
     user := user s; isLoading := isLoading s |}.

(** [setIsAuthenticated(true); setUser(userInfo)] *)
Definition setAuthenticated (u : User) (s : Session) : Session :=
  {| localStorage := localStorage s; isAuthenticated := true;
     user := Some u; isLoading := isLoading s |}.

(** The spec's session status, read off the provider's cells. *)
Definition Anonymous (s : Session) : Prop :=
  isAuthenticated s = false /\ user s = None.

Definition Authenticated (s : Session) : Prop :=
  isAuthenticated s = true /\ is_Some (user s).

Definition storedToken (s : Session) : option string :=
  localStorage s !! JWT_STORAGE_KEY.

(** The cells [user] and [isAuthenticated] agree. *)
Definition consistent (s : Session) : Prop :=
  is_Some (user s) <-> isAuthenticated s = true.

End AuthCommon.

Import AuthCommon.

(** The version that looks the user up with [getMe]. *)
Module AuthProvider.

(** The [catch] block of [login]. *)
Definition login_catch (error : Thrown) (s : Session) : Session * Result unit :=
  let s' := logout s in
  if isResponseErrorWithStatus 401 error
  then (s', Throw InvalidCredentials)
  else (s', Throw error).

Definition login (api : AuthApi) (payload : LoginPayload) (s : Session)
  : Session * Result unit :=
  match Api.login api payload with
  | Throw error => login_catch error s
  | Ok tokenData =>
      let s1 := setItem JWT_STORAGE_KEY (token tokenData) s in
      match Api.getMe api (accessToken (localStorage s1)) with
      | Throw error => login_catch error s1
      | Ok userInfo => (setAuthenticated userInfo s1, Ok tt)
      end
  end.

(** [checkAuthStatus], the body of the start-up effect. *)
Definition checkAuthStatus (api : AuthApi) (s : Session) : Session :=
  let token := localStorage s !! JWT_STORAGE_KEY in
  let s1 :=
    if truthy token then
      match Api.getMe api (accessToken (localStorage s)) with
      | Ok userInfo => setAuthenticated userInfo s
      | Throw _ => logout s
      end
    else s in
  setIsLoading false s1.

End AuthProvider.

(** The version that makes the user record up. *)
Module AuthProviderDummy.

Definition saveAuthData (tok : AuthToken) (userInfo : User) (s : Session) : Session :=
  setAuthenticated userInfo (setItem JWT_STORAGE_KEY (token tok) s).

Definition login (api : AuthApi) (payload : LoginPayload) (s : Session)
  : Session * Result unit :=
  match Api.login api payload with
  | Ok tokenData =>
      let dummyUser := {| userId := 1; username := lp_username payload |} in
      (saveAuthData {| token := token tokenData; tokenType := tokenType tokenData |}
                    dummyUser s, Ok tt)
  | Throw error =>
      if isResponseErrorWithStatus 401 error
      then (s, Throw InvalidCredentials)
      else (s, Throw error)
  end.

(** The start-up effect. *)
Definition startup (s : Session) : Session :=
  let token := localStorage s !! JWT_STORAGE_KEY in
  let s1 :=
    if truthy token then
      let dummyUser := {| userId := 1; username := "ログインユーザー" |} in
      setAuthenticated dummyUser s
    else s in
  setIsLoading false s1.

End AuthProviderDummy.

(* ===================================================================== *)
(** * frontend/src/pages/RegisterPage.tsx *)
(* ===================================================================== *)

Module RegisterPage.

Record Page := mkPage {
  error : option string;
  successMessage : option string;
  isSubmitting : bool
}.

Inductive Effect :=
| Navigate (to : string).

Definition UsernameTaken : string := "このユーザー名は既に使用されています。".
Definition InvalidInput : string := "入力内容が正しくありません。".
Definition AutoLoginFailed : string :=
  "登録には成功しましたが、自動ログインに失敗しました。ログインページから手動でログインしてください。".
Definition Registered : string := "登録が成功しました。自動的にログインしています...".
Definition UnknownError : string := "登録中に不明なエラーが発生しました。".

(** [a || b] on strings: the empty string is falsy. *)
Definition orElse (a b : string) : string :=
  if String.eqb a "" then b else a.

(** The message the [catch] block of [handleSubmit] chooses. *)
Definition errorMessageOf (err : Thrown) : string :=
  match err with
  | ResponseError response message =>
      let status := Api.status response in
      if status =? 409 then UsernameTaken
      else if status =? 400 then
        match text response with
        | Some serverMessage => orElse serverMessage InvalidInput
        | None => InvalidInput
        end
      else if status =? 401 then AutoLoginFailed
      else orElse message ("エラーが発生しました (コード: " +:+ pretty status +:+ ")。")
  | Error message => message
  | NotAnError => UnknownError
  end.

Definition handleSubmit_catch (err : Thrown) (p : Page) : Page :=
  {| error := Some (errorMessageOf err);
     successMessage := successMessage p;
     isSubmitting := false |}.

Section WithProvider.

(** [const { register, login } = useAuth()] *)
Variable register :
  AuthApi -> RegisterPayload -> Session -> Session * Result User.
Variable login :
  AuthApi -> LoginPayload -> Session -> Session * Result unit.

Definition handleSubmit (api : AuthApi) (username password : string)
    (s : Session) (p : Page) : Session * Page * list Effect :=
  let p1 := {| error := None; successMessage := None; isSubmitting := true |} in
  match register api {| rp_username := username; rp_password := password |} s with
  | (s1, Throw err) => (s1, handleSubmit_catch err p1, [])
  | (s1, Ok _) =>
      let p2 := {| error := error p1; successMessage := Some Registered;
                   isSubmitting := isSubmitting p1 |} in
      match login api {| lp_username := username; lp_password := password |} s1 with
      | (s2, Throw err) => (s2, handleSubmit_catch err p2, [])
      | (s2, Ok _) => (s2, p2, [Navigate "/"])
      end
  end.

End WithProvider.

End RegisterPage.

(* ===================================================================== *)
(** * frontend/src/pages/HomePage.tsx *)
(* ===================================================================== *)

Module HomePage.

Inductive QueryKey := nextPaper | likedPapers.

(** The variables of the status mutation. *)
Record Variables := mkVariables { paperId : Z; status : PaperStatus }.

(** What the page asks of its surroundings. *)
Inductive Effect :=
| GetNextPaper
| SetPaperStatus (paperId : Z) (status : PaperStatus)
| InvalidateQueries (queryKey : QueryKey).

Inductive QueryStatus := QPending | QError | QSuccess.
Inductive MutationStatus := MIdle | MPending | MSuccess | MError.

(** The page's own cell [isCurrentLiked], the observed state of the
    ['nextPaper'] query ([paper] is its [data]) and that of the mutation. *)
Record Home := mkHome {
  isCurrentLiked : bool;
  paper : option Paper;
  error : option Thrown;
  queryStatus : QueryStatus;
  isFetching : bool;
  mutationStatus : MutationStatus
}.

Definition isLoading (h : Home) : bool :=
  isFetching h && match queryStatus h with QPending => true | _ => false end.
Definition isError (h : Home) : bool :=
  match queryStatus h with QError => true | _ => false end.
Definition isMutating (h : Home) : bool :=
  match mutationStatus h with MPending => true | _ => false end.

Definition setIsCurrentLiked (b : bool) (h : Home) : Home :=
  {| isCurrentLiked := b; paper := paper h; error := error h;
     queryStatus := queryStatus h; isFetching := isFetching h;
     mutationStatus := mutationStatus h |}.

Definition setMutationStatus (m : MutationStatus) (h : Home) : Home :=
  {| isCurrentLiked := isCurrentLiked h; paper := paper h; error := error h;
     queryStatus := queryStatus h; isFetching := isFetching h;
     mutationStatus := m |}.

(** ** The options the page hands to [useQuery] *)

Definition queryFn : Effect := GetNextPaper.

Definition retry (failureCount : Z) (error : Thrown) : bool :=
  if isResponseErrorWithStatus 404 error then false
  else failureCount <? 3.

(** ** The options the page hands to [useMutation] *)

Definition mutationFn (variables : Variables) : Effect :=
  SetPaperStatus (paperId variables) (status variables).

Definition onSuccess (variables : Variables) : list Effect :=
  (if decide (status variables = Read)
   then [InvalidateQueries nextPaper] else [])
  ++
  (if decide (status variables = Liked)
   then [InvalidateQueries likedPapers] else []).

Definition onError (err : Thrown) (variables : Variables) (h : Home) : Home :=
  if decide (status variables = Liked)
  then setIsCurrentLiked false h
  else h.

(** ** The query library, as the page relies on it

    [mutate] marks the mutation pending and sends [mutationFn]; when the
    call settles the library records success or failure and runs the
    matching callback. A fetch of the query calls [queryFn], and after a
    failure asks [retry] whether to call it again, with the number of
    failures before this one. A settled fetch replaces [data] on success
    and keeps it on failure. *)

Definition mutate (variables : Variables) (h : Home) : Home * list Effect :=
  (setMutationStatus MPending h, [mutationFn variables]).

Definition mutationSettled (r : Result unit) (variables : Variables) (h : Home)
  : Home * list Effect :=
  match r with
  | Ok _ => (setMutationStatus MSuccess h, onSuccess variables)
  | Throw err => (onError err variables (setMutationStatus MError h), [])
  end.

(** One fetch against the collaborator's successive answers: the outcome
    and the number of requests sent, or [None] while an answer is still
    outstanding. *)
Fixpoint fetch (failureCount : Z) (answers : list (Result Paper))
  : option (Result Paper * nat) :=
  match answers with
  | [] => None
  | Ok p :: _ => Some (Ok p, 1%nat)
  | Throw e :: rest =>
      if retry failureCount e
      then match fetch (failureCount + 1) rest with
           | Some (r, n) => Some (r, S n)
           | None => None
           end
      else Some (Throw e, 1%nat)
  end.

(** The effect [useEffect(() => setIsCurrentLiked(false), [paper?.id])]
    runs when [paper?.id] differs from what it was at the previous
    render. *)
Definition resetLikedIfChanged (before : option Z) (h : Home) : Home :=
  if decide (Api.id <$> paper h = before) then h
  else setIsCurrentLiked false h.

Definition fetchSettled (r : Result Paper) (h : Home) : Home :=
  match r with
  | Ok p =>
      resetLikedIfChanged (Api.id <$> paper h)
        {| isCurrentLiked := isCurrentLiked h; paper := Some p; error := None;
           queryStatus := QSuccess; isFetching := false;
           mutationStatus := mutationStatus h |}
  | Throw e =>
      {| isCurrentLiked := isCurrentLiked h; paper := paper h; error := Some e;
         queryStatus := QError; isFetching := false;
         mutationStatus := mutationStatus h |}
  end.

(** ** The handler and the view *)

Definition handleRate (status : PaperStatus) (h : Home) : Home * list Effect :=
  match paper h with
  | Some p =>
      let '(h1, effects) := mutate {| paperId := Api.id p; status := status |} h in
      if decide (status = Liked)
      then (setIsCurrentLiked true h1, effects)
      else (h1, effects)
  | None => (h, [])
  end.

Inductive View :=
| Loading
| AllDone
| ErrorBanner (message : option string)
| NoPaper
| PaperCard (paper : Paper) (starDisabled isLiked nextDisabled : bool).

Definition messageOf (e : option Thrown) : option string :=
  match e with
  | Some (ResponseError _ m) | Some (Error m) => Some m
  | _ => None
  end.

Definition render (h : Home) : View :=
  if isLoading h then Loading
  else if match error h with
          | Some e => isResponseErrorWithStatus 404 e
          | None => false
          end then AllDone
  else if isError h then ErrorBanner (messageOf (error h))
  else match paper h with
       | None => NoPaper
       | Some p =>
           PaperCard p (isMutating h || isCurrentLiked h) (isCurrentLiked h)
                     (isMutating h)
       end.

(** ** The page as a transition system

    Everything that can happen to a mounted page: the user presses one of
    the two buttons, the pending status call settles, or a fetch of the
    next paper settles. *)
Inductive Event :=
| Rate (status : PaperStatus)
| MutationSettled (r : Result unit) (variables : Variables)
| FetchSettled (r : Result Paper).

Definition step (ev : Event) (h : Home) : Home * list Effect :=
  match ev with
  | Rate status => handleRate status h
  | MutationSettled r variables => mutationSettled r variables h
  | FetchSettled r => (fetchSettled r h, [])
  end.

Definition run (evs : list Event) (h : Home) : Home :=
  fold_left (fun h ev => fst (step ev h)) evs h.

(** The status call for a like has failed. *)
Definition failedLiked (ev : Event) : bool :=
  match ev with
  | MutationSettled (Throw _) variables => bool_decide (status variables = Liked)
  | _ => false
  end.

(** A fetch has brought a paper other than the one with this id. *)
Definition bringsOtherPaper (current : Z) (ev : Event) : bool :=
  match ev with
  | FetchSettled (Ok p) => negb (Api.id p =? current)
  | _ => false
  end.

End HomePage.

(* ===================================================================== *)
(** * JavaScript strings, as far as the admin page computes on them *)
(* ===================================================================== *)

(** The admin page takes its text area apart character by character, so its
    text is modelled as JavaScript has it: a sequence of UTF-16 code units. *)
Module JsString.

Definition t := list N.

Definition LF : N := 10%N.

(** [String.prototype.trim] removes WhiteSpace and LineTerminator code
    points (ECMAScript 12.2 and 12.3); all of them are single code
    units. *)
Definition isTrimmed (c : N) : bool :=
  ((9 <=? c) && (c <=? 13) ||
   (c =? 32) || (c =? 160) || (c =? 5760) ||
   (8192 <=? c) && (c <=? 8202) ||
   (c =? 8232) || (c =? 8233) || (c =? 8239) || (c =? 8287) ||
   (c =? 12288) || (c =? 65279))%N.

Fixpoint trimStart (s : t) : t :=
  match s with
  | c :: rest => if isTrimmed c then trimStart rest else s
  | [] => []
  end.

Definition trimEnd (s : t) : t := reverse (trimStart (reverse s)).

Definition trim (s : t) : t := trimEnd (trimStart s).

(** [s.split(sep)] for a separator of one code unit. *)
Fixpoint split (sep : N) (s : t) : list t :=
  match s with
  | [] => [[]]
  | c :: rest =>
      if (c =? sep)%N then [] :: split sep rest
      else match split sep rest with
           | piece :: pieces => (c :: piece) :: pieces
           | [] => [[c]]
           end
  end.

(** [pieces.join(sep)] *)
Fixpoint join (sep : N) (pieces : list t) : t :=
  match pieces with
  | [] => []
  | [piece] => piece
  | piece :: more => piece ++ sep :: join sep more
  end.

(** The code units of a text in ASCII. *)
Definition ofAscii (s : string) : t :=
  map Ascii.N_of_ascii (String.list_ascii_of_string s).

End JsString.

(* ===================================================================== *)
(** * frontend/src/pages/AdminPage.tsx *)
(* ===================================================================== *)

Module AdminPage.

Record CrawlPayload := mkCrawlPayload { payload_urls : list JsString.t }.

Inductive Effect :=
| TriggerCrawl (crawlPayload : CrawlPayload).

Record Admin := mkAdmin {
  urls : JsString.t;
  successMessage : option string;
  errorMessage : option string;
  isPending : bool
}.

Definition NoUrl : string := "最低1つのURLを入力してください。".

Definition setErrorMessage (m : option string) (a : Admin) : Admin :=
  {| urls := urls a; successMessage := successMessage a;
     errorMessage := m; isPending := isPending a |}.

(** [mutate]: [onMutate] clears both messages, then [mutationFn] sends the
    payload. *)
Definition mutate (payload : CrawlPayload) (a : Admin) : Admin * list Effect :=
  ({| urls := urls a; successMessage := None; errorMessage := None;
      isPending := true |},
   [TriggerCrawl payload]).

Definition urlsToCrawl (a : Admin) : list JsString.t :=
  List.filter (fun url => (0 <? length url)%nat)
         (map JsString.trim (JsString.split JsString.LF (urls a))).

Definition handleSubmit (a : Admin) : Admin * list Effect :=
  let urlsToCrawl := urlsToCrawl a in
  if (length urlsToCrawl =? 0)%nat
  then (setErrorMessage (Some NoUrl) a, [])
  else mutate {| payload_urls := urlsToCrawl |} a.

(** ** The claimed behaviour, in the words of the specification *)

(** [lines] are the lines of [s]: putting a newline between consecutive
    ones gives [s] back, and none contains a newline. *)
Definition linesOf (s : JsString.t) (lines : list JsString.t) : Prop :=
  JsString.join JsString.LF lines = s /\
  Forall (fun line => JsString.LF ∉ line) lines.

(** [trimmed] is [line] without the white space at its two ends. *)
Definition trimOf (line trimmed : JsString.t) : Prop :=
  exists before after,
    line = before ++ trimmed ++ after /\
    Forall (fun c => JsString.isTrimmed c = true) before /\
    Forall (fun c => JsString.isTrimmed c = true) after /\
    (forall c, head trimmed = Some c -> JsString.isTrimmed c = false) /\
    (forall c, last trimmed = Some c -> JsString.isTrimmed c = false).

End AdminPage.

(* ===================================================================== *)
(** * The session as a transition system *)
(* ===================================================================== *)

Module SessionMachine.

(** The two versions of frontend/src/auth/AuthProvider.tsx. *)
Inductive Version := GetMeLookup | DummyUser.

Definition login (v : Version)
  : AuthApi -> LoginPayload -> Session -> Session * Result unit :=
  match v with
  | GetMeLookup => AuthProvider.login
  | DummyUser => AuthProviderDummy.login
  end.

Definition startup (v : Version) (api : AuthApi) (s : Session) : Session :=
  match v with
  | GetMeLookup => AuthProvider.checkAuthStatus api s
  | DummyUser => AuthProviderDummy.startup s
  end.

(** What can happen to a session. Each operation meets the collaborator
    as it is at that moment, so each carries its own. Neither version of
    the provider reacts to a 401 that some other API call received: the
    session is left as it is. *)
Inductive Op :=
| Startup (api : AuthApi)
| Login (api : AuthApi) (payload : LoginPayload)
| Register (api : AuthApi) (payload : RegisterPayload)
| Logout
| UnauthorizedElsewhere.

Definition apply (v : Version) (s : Session) (op : Op) : Session :=
  match op with
  | Startup api => startup v api s
  | Login api payload => fst (login v api payload s)
  | Register api payload => fst (AuthCommon.register api payload s)
  | Logout => logout s
  | UnauthorizedElsewhere => s
  end.

Definition run (v : Version) (ops : list Op) (s : Session) : Session :=
  fold_left (apply v) ops s.

(** The same at a finer grain. The provider's functions are asynchronous:
    between two awaits a piece of one runs undisturbed, and pieces of
    different calls may alternate. These are the pieces that write. *)
Inductive Piece :=
| StoreToken (t : string)
| SetAuthenticated (u : User)
| DoLogout
| SetLoaded.

Definition perform (s : Session) (piece : Piece) : Session :=
  match piece with
  | StoreToken t => setItem JWT_STORAGE_KEY t s
  | SetAuthenticated u => setAuthenticated u s
  | DoLogout => logout s
  | SetLoaded => setIsLoading false s
  end.

Definition performAll (pieces : list Piece) (s : Session) : Session :=
  fold_left perform pieces s.

(** [true] when the awaited call was answered with that HTTP status. *)
Definition answeredWith {A} (n : Z) (r : Result A) : bool :=
  match r with
  | Throw e => isResponseErrorWithStatus n e
  | Ok _ => false
  end.

End SessionMachine.

(* ===================================================================== *)
(** * Collaborators and states used in the examples *)
(* ===================================================================== *)

Module Examples.

Definition unauthorized : Thrown :=
  ResponseError {| Api.status := 401; text := Some "Unauthorized" |} "Response returned an error code".

Definition notFound : Thrown :=
  ResponseError {| Api.status := 404; text := Some "" |} "Response returned an error code".

Definition bob : User := {| userId := 2; username := "bob" |}.

(** A server that knows bob as user 2 and accepts the password x. *)
Definition server : AuthApi :=
  {| Api.login := fun p =>
       if String.eqb (lp_username p) "bob" && String.eqb (lp_password p) "x"
       then Ok {| token := "t-bob"; tokenType := "Bearer" |}
       else Throw unauthorized;
     Api.getMe := fun t =>
       if String.eqb t "t-bob" then Ok bob else Throw unauthorized;
     Api.register := fun p =>
       Throw (ResponseError {| Api.status := 409; text := Some "" |} "Response returned an error code") |}.

(** A server on which bob can be registered but not logged in. *)
Definition serverRefusingLogin : AuthApi :=
  {| Api.login := fun _ => Throw unauthorized;
     Api.getMe := fun _ => Throw unauthorized;
     Api.register := fun p => Ok {| userId := 2; username := rp_username p |} |}.

Definition fresh : Session := initial ∅.

Definition withStaleToken : Session := initial {[ JWT_STORAGE_KEY := "expired" ]}.

Definition blankPage : RegisterPage.Page :=
  {| RegisterPage.error := None; RegisterPage.successMessage := None;
     RegisterPage.isSubmitting := false |}.

Definition paper7 : Paper :=
  {| Api.id := 7; conferenceName := "USENIX Security"; year := 2025;
     title := "A paper"; url := None; authors := None; abstractText := None |}.

Definition paper8 : Paper :=
  {| Api.id := 8; conferenceName := "USENIX Security"; year := 2025;
     title := "Another paper"; url := None; authors := None;
     abstractText := None |}.

(** The home page showing paper 7, nothing in flight. *)
Definition showing7 : HomePage.Home :=
  {| HomePage.isCurrentLiked := false; HomePage.paper := Some paper7;
     HomePage.error := None; HomePage.queryStatus := HomePage.QSuccess;
     HomePage.isFetching := false; HomePage.mutationStatus := HomePage.MIdle |}.

(** The home page with the first fetch still in flight. *)
Definition loading : HomePage.Home :=
  {| HomePage.isCurrentLiked := false; HomePage.paper := None;
     HomePage.error := None; HomePage.queryStatus := HomePage.QPending;
     HomePage.isFetching := true; HomePage.mutationStatus := HomePage.MIdle |}.

(** The home page with nothing fetched and nothing in flight. *)
Definition empty : HomePage.Home :=
  {| HomePage.isCurrentLiked := false; HomePage.paper := None;
     HomePage.error := None; HomePage.queryStatus := HomePage.QPending;
     HomePage.isFetching := false; HomePage.mutationStatus := HomePage.MIdle |}.

End Examples.

(* ===================================================================== *)
(** * frontend/src/components/Form.tsx and StatusMessage.tsx *)
(* ===================================================================== *)

Module Form.

(** [disabled={isSubmitting || !isFormValid}] on the submit button. *)
Definition submitDisabled (isSubmitting isFormValid : bool) : bool :=
  isSubmitting || negb isFormValid.

(** [{isSubmitting ? submitButtonLoadingText : submitButtonText}] *)
Definition submitLabel (isSubmitting : bool)
    (submitButtonText submitButtonLoadingText : string) : string :=
  if isSubmitting then submitButtonLoadingText else submitButtonText.

(** [StatusMessage]: the text of the paragraph it renders, if it renders
    one. [if (!message) return null]. *)
Definition StatusMessage (message : option string) : option string :=
  match message with
  | Some m => if String.eqb m "" then None else Some m
  | None => None
  end.

End Form.

(* ===================================================================== *)
(** * frontend/src/pages/LoginPage.tsx *)
(* ===================================================================== *)

Module LoginPage.

Record Page := mkPage {
  error : option string;
  isSubmitting : bool
}.

Inductive Effect :=
| Navigate (to : string).

Definition UnknownError : string := "ログイン中に不明なエラーが発生しました。".

(** [username.trim() !== '' && password.trim() !== '']; the registration
    page computes the same. *)
Definition isFormValid (username password : JsString.t) : bool :=
  match JsString.trim username with [] => false | _ :: _ => true end
  &&
  match JsString.trim password with [] => false | _ :: _ => true end.

(** [err instanceof Error ? err.message : "..."] *)
Definition errorMessageOf (err : Thrown) : string :=
  match err with
  | ResponseError _ message | Error message => message
  | NotAnError => UnknownError
  end.

Section WithProvider.

(** [const { login } = useAuth()] *)
Variable login :
  AuthApi -> LoginPayload -> Session -> Session * Result unit.

Definition handleSubmit (api : AuthApi) (username password : string)
    (s : Session) (p : Page) : Session * Page * list Effect :=
  let p1 := {| error := None; isSubmitting := true |} in
  match login api {| lp_username := username; lp_password := password |} s with
  | (s1, Ok _) => (s1, p1, [Navigate "/"])
  | (s1, Throw err) =>
      (s1, {| error := Some (errorMessageOf err); isSubmitting := false |}, [])
  end.

End WithProvider.

End LoginPage.

(* ===================================================================== *)
(** * frontend/src/App.tsx *)
(* ===================================================================== *)

Module App.

(** The entries of the route table; which one a location matches is the
    router's business. *)
Inductive Route :=
| LoginRoute        (* /login *)
| RegisterRoute     (* /register *)
| HomeRoute         (* / *)
| LikedRoute        (* /liked *)
| AdminRoute        (* /admin *)
| NoMatch.          (* * *)

Inductive Element :=
| NavigateTo (to : Route)
| LoginPageElement
| RegisterPageElement
| AuthLoading
| HomePageElement
| LikedPapersPageElement
| AdminPageElement
| NotFound.

(** [ProtectedRoute], around the element its [Outlet] would render. *)
Definition ProtectedRoute (s : Session) (outlet : Element) : Element :=
  if isLoading s then AuthLoading
  else if negb (isAuthenticated s) then NavigateTo LoginRoute
  else outlet.

Definition AppRoutes (s : Session) (route : Route) : Element :=
  match route with
  | LoginRoute =>
      if isAuthenticated s then NavigateTo HomeRoute else LoginPageElement
  | RegisterRoute =>
      if isAuthenticated s then NavigateTo HomeRoute else RegisterPageElement
  | HomeRoute => ProtectedRoute s HomePageElement
  | LikedRoute => ProtectedRoute s LikedPapersPageElement
  | AdminRoute => ProtectedRoute s AdminPageElement
  | NoMatch => NotFound
  end.

(** Rendering a route and following the redirects it answers with, at most
    [redirects] of them. *)
Fixpoint settle (redirects : nat) (s : Session) (route : Route) : option Element :=
  match AppRoutes s route with
  | NavigateTo to =>
      match redirects with
      | O => None
      | S n => settle n s to
      end
  | element => Some element
  end.

Definition protected (e : Element) : bool :=
  match e with
  | HomePageElement | LikedPapersPageElement | AdminPageElement => true
  | _ => false
  end.

Definition public (e : Element) : bool :=
  match e with
  | LoginPageElement | RegisterPageElement => true
  | _ => false
  end.

End App.

(* ===================================================================== *)
(** * frontend/src/pages/AdminPage.tsx, the callbacks of its mutation *)
(* ===================================================================== *)

Module AdminMutation.

Import AdminPage.

Definition Started : string := "クロールがバックグラウンドで開始されました。".
Definition UnknownError : string := "不明なエラーが発生しました。".

Definition onSuccess (a : Admin) : Admin :=
  {| urls := urls a; successMessage := Some Started;
     errorMessage := errorMessage a; isPending := isPending a |}.

(** The message [onError] builds. *)
Definition errorMessageOf (error : Thrown) : string :=
  match error with
  | ResponseError response message =>
      let status := Api.status response in
      match text response with
      | Some errorText =>
          "エラー " +:+ pretty status +:+ ": " +:+ RegisterPage.orElse errorText message
      | None =>
          "エラー " +:+ pretty status +:+ ": " +:+ message
      end
  | Error message => message
  | NotAnError => UnknownError
  end.

Definition onError (error : Thrown) (a : Admin) : Admin :=
  setErrorMessage (Some (errorMessageOf error)) a.

Definition setIsPending (b : bool) (a : Admin) : Admin :=
  {| urls := urls a; successMessage := successMessage a;
     errorMessage := errorMessage a; isPending := b |}.

(** The crawl call has settled: the library ends the pending state and runs
    the matching callback. *)
Definition mutationSettled (r : Result unit) (a : Admin) : Admin :=
  match r with
  | Ok _ => onSuccess (setIsPending false a)
  | Throw error => onError error (setIsPending false a)
  end.

(** [setUrls], the text area's change handler. *)
Definition setUrls (value : JsString.t) (a : Admin) : Admin :=
  {| urls := value; successMessage := successMessage a;
     errorMessage := errorMessage a; isPending := isPending a |}.

End AdminMutation.

(* ===================================================================== *)
(** * Further notions used in the statements *)
(* ===================================================================== *)

Module Notions.

Definition isStartup (op : SessionMachine.Op) : bool :=
  match op with
  | SessionMachine.Startup _ => true
  | _ => false
  end.

(** A text with something in it other than white space. *)
Definition hasVisibleCharacter (s : JsString.t) : Prop :=
  exists c, c ∈ s /\ JsString.isTrimmed c = false.

(** A url as the crawl request carries it: not empty, on one line, no
    white space at either end. *)
Definition cleanUrl (url : JsString.t) : Prop :=
  url <> [] /\
  (JsString.LF ∉ url) /\
  (forall c, head url = Some c -> JsString.isTrimmed c = false) /\
  (forall c, last url = Some c -> JsString.isTrimmed c = false).

(** A failure [retry] gives up on at once. *)
Definition isNotFound (r : Result Paper) : bool :=
  match r with
  | Throw e => isResponseErrorWithStatus 404 e
  | Ok _ => false
  end.

Definition isFailure (r : Result Paper) : bool :=
  match r with
  | Throw _ => true
  | Ok _ => false
  end.

(** A server that is down. *)
Definition unreachable : Thrown := Api.Error "Failed to fetch".

Definition internalError : Thrown :=
  ResponseError {| Api.status := 500; text := None |} "".

Definition serverDown : AuthApi :=
  {| Api.login := fun _ => Throw unreachable;
     Api.getMe := fun _ => Throw unreachable;
     Api.register := fun _ => Throw unreachable |}.

(** A server on which bob can be registered and then logs in. *)
Definition welcoming : AuthApi :=
  {| Api.login := Api.login Examples.server;
     Api.getMe := Api.getMe Examples.server;
     Api.register := fun p => Ok {| userId := 2; username := rp_username p |} |}.

Definition someAdmin : AdminPage.Admin :=
  {| AdminPage.urls := [97; 10; 10; 32; 98; 32; 10]%N;
     AdminPage.successMessage := None;
     AdminPage.errorMessage := None; AdminPage.isPending := false |}.


End Notions.

(* ===================================================================== *)
(** * frontend/src/auth/AuthProvider.tsx, with its suspensions written out *)
(* ===================================================================== *)

(** [login] and [checkAuthStatus] of the version with the identity lookup
    suspend at each [await]; until the answer arrives other calls of the
    provider may run and change the session. Here each continuation resumes
    on the session as those calls have left it: [during] is what happened
    to the session while the call was suspended. With nothing happening
    ([during] the identity) these are [AuthProvider.login] and
    [AuthProvider.checkAuthStatus]. *)
Module Suspended.

(** Nothing happened while the call was suspended. *)
Definition undisturbed (s : Session) : Session := s.

Definition login (api : AuthApi) (payload : LoginPayload)
    (duringLogin duringLookup : Session -> Session) (s : Session)
  : Session * Result unit :=
  let s1 := duringLogin s in
  match Api.login api payload with
  | Throw error => AuthProvider.login_catch error s1
  | Ok tokenData =>
      let s2 := setItem JWT_STORAGE_KEY (token tokenData) s1 in
      match Api.getMe api (accessToken (localStorage s2)) with
      | Throw error => AuthProvider.login_catch error (duringLookup s2)
      | Ok userInfo => (setAuthenticated userInfo (duringLookup s2), Ok tt)
      end
  end.

Definition checkAuthStatus (api : AuthApi) (duringLookup : Session -> Session)
    (s : Session) : Session :=
  let token := localStorage s !! JWT_STORAGE_KEY in
  if truthy token then
    match Api.getMe api (accessToken (localStorage s)) with
    | Ok userInfo => setIsLoading false (setAuthenticated userInfo (duringLookup s))
    | Throw _ => setIsLoading false (logout (duringLookup s))
    end
  else setIsLoading false s.

End Suspended.

(* ===================================================================== *)
(** * frontend/src/pages/HomePage.tsx, the buttons of the paper card *)
(* ===================================================================== *)

Module PaperCardButtons.

Import HomePage.

(** A click on the star ([Liked]) or on the next button ([Read]). The
    handler runs only when the card is rendered and the button is not
    [disabled]: the star is disabled by [isMutating || isCurrentLiked], the
    next button by [isMutating]. *)
Definition click (status : PaperStatus) (h : Home) : Home * list Effect :=
  match render h with
  | PaperCard _ starDisabled _ nextDisabled =>
      if match status with Liked => starDisabled | Read => nextDisabled end
      then (h, [])
      else handleRate status h
  | _ => (h, [])
  end.

End PaperCardButtons.

(* ===================================================================== *)
(** * Further states used in the examples *)
(* ===================================================================== *)

Module States.


(** An admin page with nothing but blanks and line breaks typed in. *)
Definition blankAdmin : AdminPage.Admin :=
  {| AdminPage.urls := [32; 10; 9; 10; 12288]%N;
     AdminPage.successMessage := None;
     AdminPage.errorMessage := None; AdminPage.isPending := false |}.

End States.

(* ===================================================================== *)
(** * Properties of the session *)
(* ===================================================================== *)

Section SessionFacts.

Import SessionMachine.

Lemma logout_anonymous s : Anonymous (logout s).
Proof. by split. Qed.

Lemma logout_no_token s : storedToken (logout s) = None.
Proof. apply lookup_delete_eq. Qed.

Lemma accessToken_setItem t s :
  accessToken (localStorage (setItem JWT_STORAGE_KEY t s)) = t.
Proof. unfold accessToken; simpl. by rewrite lookup_insert_eq. Qed.


Lemma consistent_initial stored : consistent (initial stored).
Proof. split; [intros [u Hu]; discriminate | discriminate]. Qed.

Lemma consistent_logout s : consistent (logout s).
Proof. split; [intros [u Hu]; discriminate | discriminate]. Qed.

Lemma consistent_setAuthenticated u s : consistent (setAuthenticated u s).
Proof. split; [done | by eexists]. Qed.

Lemma consistent_setItem k t s : consistent s -> consistent (setItem k t s).
Proof. done. Qed.

Lemma consistent_setIsLoading b s : consistent s -> consistent (setIsLoading b s).
Proof. done. Qed.

Lemma consistent_login v api payload s :
  consistent s -> consistent (fst (login v api payload s)).
Proof.
  intros Hs. destruct v; simpl.
  - unfold AuthProvider.login, AuthProvider.login_catch.
    destruct (Api.login api payload) as [tokenData|e].
    + destruct (getMe api _) as [userInfo|e]; simpl.
      * apply consistent_setAuthenticated.
      * destruct (isResponseErrorWithStatus 401 e); apply consistent_logout.
    + destruct (isResponseErrorWithStatus 401 e); apply consistent_logout.
  - unfold AuthProviderDummy.login, AuthProviderDummy.saveAuthData.
    destruct (Api.login api payload) as [tokenData|e]; simpl.
    + apply consistent_setAuthenticated.
    + by destruct (isResponseErrorWithStatus 401 e).
Qed.

Lemma consistent_startup v api s :
  consistent s -> consistent (startup v api s).
Proof.
  intros Hs. destruct v; simpl.
  - unfold AuthProvider.checkAuthStatus.
    apply consistent_setIsLoading.
    destruct (truthy _); [|done].
    destruct (getMe api _);
      [apply consistent_setAuthenticated | apply consistent_logout].
  - unfold AuthProviderDummy.startup.
    apply consistent_setIsLoading.
    destruct (truthy _); [apply consistent_setAuthenticated | done].
Qed.

Lemma consistent_apply v op s : consistent s -> consistent (apply v s op).
Proof.
  destruct op; simpl; intros Hs.
  - by apply consistent_startup.
  - by apply consistent_login.
  - done.
  - apply consistent_logout.
  - done.
Qed.

(** Every operation is a run of pieces. *)
Lemma apply_pieces v op s : exists pieces, apply v s op = performAll pieces s.
Proof.
  destruct op as [api|api payload|api payload| |]; simpl.
  - destruct v; simpl.
    + unfold AuthProvider.checkAuthStatus.
      destruct (truthy _); [|by exists [SetLoaded]].
      destruct (getMe api _) as [u|e];
        [by exists [SetAuthenticated u; SetLoaded] | by exists [DoLogout; SetLoaded]].
    + unfold AuthProviderDummy.startup.
      destruct (truthy _); [|by exists [SetLoaded]].
      by eexists [SetAuthenticated _; SetLoaded].
  - destruct v; simpl.
    + unfold AuthProvider.login, AuthProvider.login_catch.
      destruct (Api.login api payload) as [tokenData|e].
      * destruct (getMe api _) as [u|e].
        -- by exists [StoreToken (token tokenData); SetAuthenticated u].
        -- exists [StoreToken (token tokenData); DoLogout].
           by destruct (isResponseErrorWithStatus 401 e).
      * exists [DoLogout]. by destruct (isResponseErrorWithStatus 401 e).
    + unfold AuthProviderDummy.login, AuthProviderDummy.saveAuthData.
      destruct (Api.login api payload) as [tokenData|e].
      * by eexists [StoreToken _; SetAuthenticated _].
      * exists []. by destruct (isResponseErrorWithStatus 401 e).
  - by exists [].
  - by exists [DoLogout].
  - by exists [].
Qed.

(** However the pieces of concurrent calls alternate, the two cells agree
    after each of them. *)
Lemma consistent_performAll pieces : forall s,
  consistent s -> consistent (performAll pieces s).
Proof.
  induction pieces as [|piece pieces IH]; intros s Hs; simpl; [done|].
  apply IH. destruct piece; simpl;
    auto using consistent_setItem, consistent_setAuthenticated,
               consistent_logout, consistent_setIsLoading.
Qed.

(** C9. Whatever sequence of start-up checks, logins, registrations,
    logouts and 401 answers to other calls a provider of either version
    goes through from its first render, [user] is non-null exactly when
    [isAuthenticated] is true. *)
Theorem user_iff_authenticated (v : Version) (stored : gmap string string)
    (ops : list Op) :
  let s := run v ops (initial stored) in
  is_Some (user s) <-> isAuthenticated s = true.
Proof.
  simpl. unfold run.
  generalize (consistent_initial stored).
  generalize (initial stored) as s.
  induction ops as [|op ops IH]; intros s Hs; simpl.
  - exact Hs.
  - apply IH. by apply consistent_apply.
Qed.

End SessionFacts.

Section LoginFacts.

Import SessionMachine.


(** It does return normally whenever both calls are answered. *)
Lemma login_getMe_returns api payload s tokenData userInfo :
  Api.login api payload = Ok tokenData ->
  getMe api (token tokenData) = Ok userInfo ->
  AuthProvider.login api payload s
  = (setAuthenticated userInfo (setItem JWT_STORAGE_KEY (token tokenData) s), Ok tt).
Proof.
  intros Hlogin Hme. unfold AuthProvider.login.
  by rewrite Hlogin, accessToken_setItem, Hme.
Qed.


(** C2, at the input where the code departs from it. bob, who is user 2
    on the server, logs in with the right password. The version with the
    identity lookup stores the token and sets [user] to the server's
    record of bob. The version with the made-up user stores the token and
    authenticates too, but its [user] is user 1, which is not who the
    server says the bearer of that token is. *)
Theorem login_dummy_user_is_not_the_identity :
  let payload := {| lp_username := "bob"; lp_password := "x" |} in
  let s1 := fst (AuthProvider.login Examples.server payload Examples.fresh) in
  let s2 := fst (AuthProviderDummy.login Examples.server payload Examples.fresh) in
  snd (AuthProvider.login Examples.server payload Examples.fresh) = Ok tt /\
  snd (AuthProviderDummy.login Examples.server payload Examples.fresh) = Ok tt /\
  storedToken s1 = Some "t-bob" /\ storedToken s2 = Some "t-bob" /\
  isAuthenticated s1 = true /\ isAuthenticated s2 = true /\
  getMe Examples.server "t-bob" = Ok Examples.bob /\
  user s1 = Some Examples.bob /\
  user s2 = Some {| userId := 1; username := "bob" |} /\
  user s2 <> Some Examples.bob.
Proof. repeat split; try reflexivity. discriminate. Qed.

(** The [catch] block of the version with the identity lookup logs out
    whatever went wrong: after a failed [login] the session is anonymous
    and nothing is stored under the key, from any state. *)
Lemma login_getMe_failure api payload s s' e :
  AuthProvider.login api payload s = (s', Throw e) ->
  Anonymous s' /\ storedToken s' = None.
Proof.
  unfold AuthProvider.login, AuthProvider.login_catch.
  destruct (Api.login api payload) as [tokenData|e1].
  - destruct (getMe api _) as [userInfo|e2]; [done|].
    destruct (isResponseErrorWithStatus 401 e2); intros [= <- _];
      split; auto using logout_anonymous, logout_no_token.
  - destruct (isResponseErrorWithStatus 401 e1); intros [= <- _];
      split; auto using logout_anonymous, logout_no_token.
Qed.






End LoginFacts.

Section StartupFacts.

Import SessionMachine.

(** The start-up check of the version with the identity lookup does what
    the specification asks, from the provider's first render over any
    stored content: it ends with [isLoading] false; with no token stored
    the session is anonymous and the collaborator is not consulted; with a
    token stored the session is what the identity lookup for that token
    says: authenticated as the user it answers, or, when it fails in any
    way, anonymous with the token removed. *)
Lemma checkAuthStatus_ok api stored :
  let s := AuthProvider.checkAuthStatus api (initial stored) in
  isLoading s = false /\
  match stored !! JWT_STORAGE_KEY with
  | None => Anonymous s /\ localStorage s = stored
  | Some t =>
      if String.eqb t "" then Anonymous s
      else match getMe api t with
           | Ok userInfo =>
               isAuthenticated s = true /\ user s = Some userInfo /\
               storedToken s = Some t
           | Throw _ => Anonymous s /\ storedToken s = None
           end
  end.
Proof.
  unfold AuthProvider.checkAuthStatus, accessToken, storedToken; simpl.
  split.
  - done.
  - destruct (stored !! JWT_STORAGE_KEY) as [t|] eqn:Ht; simpl.
    + destruct (String.eqb t ""); simpl; [done|].
      destruct (getMe api t); simpl.
      * by rewrite Ht.
      * split; [done | apply lookup_delete_eq].
    + done.
Qed.

(** C5, at the input where the code departs from it. The browser holds an
    expired token, and the collaborator answers 401 to an identity lookup
    with it. The start-up check of the version with the identity lookup
    clears the token and leaves the session anonymous. The start-up effect
    of the version with the made-up user never asks the collaborator: it
    keeps the token and declares the session authenticated as user 1.
    Both end with [isLoading] false. *)
Theorem startup_dummy_accepts_invalid_token :
  let s1 := startup GetMeLookup Examples.server Examples.withStaleToken in
  let s2 := startup DummyUser Examples.server Examples.withStaleToken in
  answeredWith 401 (getMe Examples.server "expired") = true /\
  (Anonymous s1 /\ storedToken s1 = None /\ isLoading s1 = false) /\
  (isAuthenticated s2 = true /\
   user s2 = Some {| userId := 1; username := "ログインユーザー" |} /\
   storedToken s2 = Some "expired" /\
   isLoading s2 = false) /\
  ~ Anonymous s2.
Proof.
  repeat split; try reflexivity.
  intros [H _]. discriminate H.
Qed.

(** With nothing stored both versions resolve to anonymous at once. *)
Lemma startup_without_token v api stored :
  stored !! JWT_STORAGE_KEY = None ->
  startup v api (initial stored) = setIsLoading false (initial stored).
Proof.
  intros Hnone. destruct v; simpl.
  - unfold AuthProvider.checkAuthStatus; simpl. by rewrite Hnone.
  - unfold AuthProviderDummy.startup; simpl. by rewrite Hnone.
Qed.

(** In every case [isLoading] is false afterwards. *)
Lemma startup_loaded v api s : isLoading (startup v api s) = false.
Proof. by destruct v. Qed.

End StartupFacts.

Section RegisterFacts.

Import SessionMachine.
Import RegisterPage.

(** [register] hands the collaborator's answer on and leaves the session
    alone. *)
Lemma register_keeps_session api payload s :
  AuthCommon.register api payload s = (s, Api.register api payload).
Proof. reflexivity. Qed.

(** What the registration page shows for each failure of [register]. *)
Lemma handleSubmit_register_fails login api username password s p err :
  Api.register api {| rp_username := username; rp_password := password |}
    = Throw err ->
  handleSubmit AuthCommon.register login api username password s p
  = (s, {| error := Some (errorMessageOf err); successMessage := None;
           isSubmitting := false |}, []).
Proof. intros H. unfold handleSubmit; simpl. by rewrite H. Qed.

Lemma errorMessageOf_conflict response message :
  Api.status response = 409 ->
  errorMessageOf (ResponseError response message) = UsernameTaken.
Proof. intros H. simpl. by rewrite H. Qed.

Lemma errorMessageOf_bad_request response message serverMessage :
  Api.status response = 400 ->
  text response = Some serverMessage ->
  serverMessage <> "" ->
  errorMessageOf (ResponseError response message) = serverMessage.
Proof.
  intros H Ht Hne. simpl. rewrite H, Ht. simpl. unfold orElse.
  destruct (String.eqb_spec serverMessage ""); [done|done].
Qed.

(** The branch for 401 is taken by a [ResponseError] only. *)
Lemma errorMessageOf_unauthorized response message :
  Api.status response = 401 ->
  errorMessageOf (ResponseError response message) = AutoLoginFailed.
Proof. intros H. simpl. by rewrite H. Qed.

(** When [register] succeeds and the collaborator answers the login that
    follows with 401, the page of either version shows the message that
    [login] made, the one for a wrong user name or password. *)
Lemma handleSubmit_auto_login_unauthorized v api username password s p u :
  Api.register api {| rp_username := username; rp_password := password |}
    = Ok u ->
  answeredWith 401
    (Api.login api {| lp_username := username; lp_password := password |})
    = true ->
  exists s',
    handleSubmit AuthCommon.register (login v) api username password s p
    = (s', {| error := Some "ユーザー名またはパスワードが正しくありません";
              successMessage := Some Registered;
              isSubmitting := false |}, []).
Proof.
  intros Hreg H401. unfold handleSubmit; simpl. rewrite Hreg.
  destruct (Api.login api _) as [tokenData|e] eqn:Hlogin; [done|].
  simpl in H401.
  destruct v; simpl.
  - unfold AuthProvider.login, AuthProvider.login_catch.
    rewrite Hlogin, H401. by eexists.
  - unfold AuthProviderDummy.login. rewrite Hlogin, H401. by eexists.
Qed.

(** C8, at the input where the code departs from it. bob registers, the
    automatic login that follows is answered with 401. The session stays
    anonymous and nothing is navigated to, but the error shown is the one
    of a wrong user name or password, next to the note that registration
    succeeded: [login] has replaced the 401 response by an error of its
    own, so the page's branch for 401, which holds the message for a
    registration whose automatic login failed, is not taken. *)
Theorem handleSubmit_auto_login_failure_not_distinct (v : Version) :
  let '(s', p', effects) :=
    handleSubmit AuthCommon.register (login v) Examples.serverRefusingLogin
      "bob" "x" Examples.fresh Examples.blankPage in
  Anonymous s' /\ storedToken s' = None /\ effects = [] /\
  successMessage p' = Some Registered /\
  error p' = Some "ユーザー名またはパスワードが正しくありません" /\
  error p' <> Some AutoLoginFailed /\
  error p' = Some (errorMessageOf InvalidCredentials) /\
  errorMessageOf Examples.unauthorized = AutoLoginFailed.
Proof.
  destruct v; repeat split; try reflexivity; discriminate.
Qed.

End RegisterFacts.

Section HomeFacts.

Import HomePage.

(** C1, as the code has it. [handleRate] takes a status only and submits
    it for the paper on display: with a candidate it sends one status
    request carrying that candidate's id; with none it does nothing at
    all, silently. So every request it sends is for the current
    candidate. *)
Theorem handleRate_submits_current_candidate (status : PaperStatus) (h : Home) :
  match paper h with
  | Some p => snd (handleRate status h) = [SetPaperStatus (Api.id p) status]
  | None => handleRate status h = (h, [])
  end /\
  forall paperId status',
    SetPaperStatus paperId status' ∈ snd (handleRate status h) ->
    Api.id <$> paper h = Some paperId /\ status' = status.
Proof.
  unfold handleRate, mutate, mutationFn.
  destruct (paper h) as [p|]; simpl.
  - split.
    + by destruct (decide (status = Liked)).
    + intros paperId status' Hin.
      destruct (decide (status = Liked)); simpl in Hin;
        apply list_elem_of_singleton in Hin; by injection Hin as -> ->.
  - split; [done|]. intros ? ? Hin. by apply not_elem_of_nil in Hin.
Qed.

(** C1 as stated fails. No function of the page compares an id with the
    candidate's or can fail: [mutate], the one that takes an id, sends the
    status of paper 8 while paper 7 is on display, and sends one with no
    candidate at all; [handleRate] with no candidate returns normally with
    the page untouched. *)
Lemma stale_decision_reaches_the_collaborator :
  Api.id <$> paper Examples.showing7 <> Some 8 /\
  snd (mutate {| paperId := 8; status := Read |} Examples.showing7)
    = [SetPaperStatus 8 Read] /\
  paper Examples.empty = None /\
  snd (mutate {| paperId := 7; status := Liked |} Examples.empty)
    = [SetPaperStatus 7 Liked] /\
  handleRate Liked Examples.empty = (Examples.empty, []).
Proof. repeat split; try reflexivity. discriminate. Qed.



Lemma retry_not_found failureCount e :
  isResponseErrorWithStatus 404 e = true -> retry failureCount e = false.
Proof. intros He. unfold retry. by rewrite He. Qed.

(** A fetch settles within four requests. *)
Lemma fetch_settles answers failureCount :
  (Z.to_nat (3 - failureCount) < length answers)%nat ->
  exists r n, fetch failureCount answers = Some (r, n) /\ (n <= length answers)%nat.
Proof.
  revert failureCount.
  induction answers as [|a answers IH]; intros failureCount Hlen; simpl in *.
  - lia.
  - destruct a as [p|e].
    + exists (Ok p), 1%nat. split; [done|lia].
    + unfold retry at 1.
      destruct (isResponseErrorWithStatus 404 e).
      * exists (Throw e), 1%nat. split; [done|lia].
      * destruct (Z.ltb_spec failureCount 3) as [Hlt|Hge].
        -- destruct (IH (failureCount + 1)) as (r & n & -> & Hn); [lia|].
           exists r, (S n). split; [done|lia].
        -- exists (Throw e), 1%nat. split; [done|lia].
Qed.

(** C4. When the collaborator answers a fetch of the next paper with 404,
    [retry] declines, at any failure count; the fetch settles on that
    answer after the one request; and what the page then shows is the
    completion message, not the error banner. *)
Theorem not_found_is_all_done (e : Thrown) (failureCount : Z)
    (later : list (Result Paper)) (h : Home) :
  isResponseErrorWithStatus 404 e = true ->
  retry failureCount e = false /\
  fetch failureCount (Throw e :: later) = Some (Throw e, 1%nat) /\
  render (fetchSettled (Throw e) h) = AllDone /\
  (forall message, render (fetchSettled (Throw e) h) <> ErrorBanner message).
Proof.
  intros He.
  assert (Hview : render (fetchSettled (Throw e) h) = AllDone).
  { unfold render, isLoading. simpl. by rewrite He. }
  split; [by apply retry_not_found|].
  split; [simpl; by rewrite retry_not_found|].
  split; [done|]. intros message. by rewrite Hview.
Qed.

Lemma not_found_is_all_done_witness :
  isResponseErrorWithStatus 404 Examples.notFound = true /\
  retry 0 Examples.notFound = false /\
  fetch 0 [Throw Examples.notFound] = Some (Throw Examples.notFound, 1%nat) /\
  render (fetchSettled (Throw Examples.notFound) Examples.loading) = AllDone /\
  (forall message,
      render (fetchSettled (Throw Examples.notFound) Examples.loading)
      <> ErrorBanner message).
Proof.
  split; [reflexivity|].
  apply (not_found_is_all_done Examples.notFound 0 [] Examples.loading).
  reflexivity.
Defined.

(** One event leaves the mark alone unless it is the failure of a like or
    the arrival of another paper. *)
Lemma liked_mark_kept_by_step ev h p :
  paper h = Some p ->
  failedLiked ev = false ->
  bringsOtherPaper (Api.id p) ev = false ->
  let h' := fst (step ev h) in
  isCurrentLiked h' = isCurrentLiked h \/ isCurrentLiked h' = true.
Proof.
  intros Hp Hfail Hother. destruct ev as [st|r variables|r]; simpl.
  - unfold handleRate. rewrite Hp. simpl.
    destruct (decide (st = Liked)); simpl; auto.
  - destruct r as [[]|err]; simpl; [auto|].
    simpl in Hfail. unfold onError.
    destruct (decide (status variables = Liked)) as [Heq|]; [|auto].
    by rewrite bool_decide_eq_false in Hfail.
  - destruct r as [p'|err]; simpl; [|auto].
    simpl in Hother. apply negb_false_iff, Z.eqb_eq in Hother.
    unfold resetLikedIfChanged. simpl. rewrite Hp. simpl.
    rewrite Hother. destruct (decide _); [auto | done].
Qed.

Lemma paper_id_kept_by_step ev h p :
  paper h = Some p ->
  bringsOtherPaper (Api.id p) ev = false ->
  exists p', paper (fst (step ev h)) = Some p' /\ Api.id p' = Api.id p.
Proof.
  intros Hp Hother. destruct ev as [st|r variables|r]; simpl.
  - unfold handleRate. rewrite Hp. simpl.
    destruct (decide (st = Liked)); simpl; eauto.
  - destruct r as [[]|err]; simpl; [eauto|].
    unfold onError. destruct (decide _); simpl; eauto.
  - destruct r as [p'|err]; simpl; [|eauto].
    simpl in Hother. apply negb_false_iff, Z.eqb_eq in Hother.
    unfold resetLikedIfChanged. simpl.
    destruct (decide _); simpl; eauto.
Qed.

Lemma liked_mark_kept_by_run evs : forall h p,
  paper h = Some p ->
  isCurrentLiked h = true ->
  Forall (fun ev => failedLiked ev = false /\
                    bringsOtherPaper (Api.id p) ev = false) evs ->
  isCurrentLiked (run evs h) = true.
Proof.
  induction evs as [|ev evs IH]; intros h p Hp Hliked Hall; simpl.
  - done.
  - apply Forall_cons in Hall as [[Hfail Hother] Hall].
    destruct (paper_id_kept_by_step ev h p Hp Hother) as (p' & Hp' & Hid).
    apply (IH _ p' Hp').
    + destruct (liked_mark_kept_by_step ev h p Hp Hfail Hother) as [->|]; done.
    + by rewrite Hid.
Qed.

(** C6. Pressing the star on a displayed paper sets the mark at once,
    while the status call is pending. A failure of that call clears it,
    whenever it arrives. Until then the mark stays, whatever else happens
    on the page, short of another paper being fetched: there is no
    transition that clears it for the call being pending. *)
Theorem liked_mark_is_optimistic (h : Home) (p : Paper) (evs : list Event) :
  paper h = Some p ->
  let '(h1, effects) := handleRate Liked h in
  effects = [SetPaperStatus (Api.id p) Liked] /\
  isCurrentLiked h1 = true /\
  isMutating h1 = true /\
  (forall err,
      isCurrentLiked
        (fst (step (MutationSettled (Throw err)
                      {| paperId := Api.id p; status := Liked |})
                   (run evs h1))) = false) /\
  (Forall (fun ev => failedLiked ev = false /\
                     bringsOtherPaper (Api.id p) ev = false) evs ->
   isCurrentLiked (run evs h1) = true).
Proof.
  intros Hp. unfold handleRate. rewrite Hp. simpl.
  split; [done|]. split; [done|]. split; [done|]. split.
  - intros err. unfold onError. simpl. done.
  - intros Hall. by apply (liked_mark_kept_by_run evs _ p).
Qed.

Lemma liked_mark_is_optimistic_witness :
  paper Examples.showing7 = Some Examples.paper7 /\
  let evs := [FetchSettled (Ok Examples.paper7); Rate Read] in
  let '(h1, effects) := handleRate Liked Examples.showing7 in
  effects = [SetPaperStatus 7 Liked] /\
  isCurrentLiked h1 = true /\
  isMutating h1 = true /\
  (forall err,
      isCurrentLiked
        (fst (step (MutationSettled (Throw err)
                      {| paperId := 7; status := Liked |})
                   (run evs h1))) = false) /\
  (Forall (fun ev => failedLiked ev = false /\
                     bringsOtherPaper 7 ev = false) evs ->
   isCurrentLiked (run evs h1) = true).
Proof.
  split; [reflexivity|].
  apply (liked_mark_is_optimistic Examples.showing7 Examples.paper7
           [FetchSettled (Ok Examples.paper7); Rate Read]).
  reflexivity.
Defined.

End HomeFacts.

Section StringFacts.

Import JsString.

Lemma split_not_nil sep s : split sep s <> [].
Proof.
  destruct s as [|c s]; simpl; [done|].
  destruct (c =? sep)%N; [done|]. by destruct (split sep s).
Qed.

Lemma join_cons sep piece pieces :
  pieces <> [] ->
  join sep (piece :: pieces) = piece ++ sep :: join sep pieces.
Proof. by destruct pieces. Qed.

(** Joining the pieces of a split gives the text back. *)
Lemma join_split sep s : join sep (split sep s) = s.
Proof.
  induction s as [|c s IH]; simpl; [done|].
  destruct (N.eqb_spec c sep) as [->|Hne].
  - rewrite join_cons by apply split_not_nil. simpl. by rewrite IH.
  - pose proof (split_not_nil sep s) as Hnil.
    destruct (split sep s) as [|piece pieces]; [done|].
    destruct pieces as [|piece' pieces]; simpl in *; by rewrite <- IH.
Qed.

(** No piece of a split contains the separator. *)
Lemma split_no_sep sep s : Forall (fun piece => sep ∉ piece) (split sep s).
Proof.
  induction s as [|c s IH]; simpl.
  - constructor; [apply not_elem_of_nil | constructor].
  - destruct (N.eqb_spec c sep) as [->|Hne].
    + constructor; [apply not_elem_of_nil | done].
    + destruct (split sep s) as [|piece pieces].
      * constructor; [|constructor]. rewrite list_elem_of_singleton. by intros <-.
      * apply Forall_cons in IH as [Hpiece Hpieces].
        constructor; [|done]. rewrite elem_of_cons. by intros [<-|?].
Qed.

Lemma split_one_piece sep piece : sep ∉ piece -> split sep piece = [piece].
Proof.
  induction piece as [|c piece IH]; simpl; [done|].
  intros [Hc Hpiece]%not_elem_of_cons.
  destruct (N.eqb_spec c sep) as [->|_]; [done|]. by rewrite IH.
Qed.

Lemma split_app_sep sep piece rest :
  sep ∉ piece -> split sep (piece ++ sep :: rest) = piece :: split sep rest.
Proof.
  induction piece as [|c piece IH]; simpl.
  - by rewrite N.eqb_refl.
  - intros [Hc Hpiece]%not_elem_of_cons.
    destruct (N.eqb_spec c sep) as [->|_]; [done|]. by rewrite IH.
Qed.

(** They are the only pieces with these two properties, but for the empty
    text, which no pieces at all also join up to. *)
Lemma split_unique sep pieces :
  pieces <> [] ->
  Forall (fun piece => sep ∉ piece) pieces ->
  split sep (join sep pieces) = pieces.
Proof.
  induction pieces as [|piece pieces IH]; intros Hnil Hno; [done|].
  apply Forall_cons in Hno as [Hpiece Hpieces].
  destruct (decide (pieces = [])) as [->|Hmore].
  - by apply split_one_piece.
  - rewrite join_cons by done.
    rewrite split_app_sep by done. by rewrite IH.
Qed.

Lemma trimStart_spec s :
  exists before,
    s = before ++ trimStart s /\
    Forall (fun c => isTrimmed c = true) before /\
    (forall c, head (trimStart s) = Some c -> isTrimmed c = false).
Proof.
  induction s as [|c s (before & Hs & Hbefore & Hhead)]; simpl.
  - exists []. repeat split; [constructor | done].
  - destruct (isTrimmed c) eqn:Hc.
    + exists (c :: before). simpl. rewrite <- Hs. repeat split; [|done].
      by constructor.
    + exists []. repeat split; [constructor|]. simpl. by intros ? [= <-].
Qed.

Lemma trimStart_app_trimmed before s :
  Forall (fun c => isTrimmed c = true) before ->
  trimStart (before ++ s) = trimStart s.
Proof.
  induction 1 as [|c before Hc _ IH]; simpl; [done|]. by rewrite Hc.
Qed.

Lemma trimStart_all_trimmed s :
  Forall (fun c => isTrimmed c = true) s -> trimStart s = [].
Proof.
  intros Hs. rewrite <- (app_nil_r s). by rewrite trimStart_app_trimmed.
Qed.

Lemma trimStart_id s :
  (forall c, head s = Some c -> isTrimmed c = false) -> trimStart s = s.
Proof.
  destruct s as [|c s]; simpl; [done|]. intros H. by rewrite (H c).
Qed.

(** [trim] takes the white space off both ends and nothing else. *)
Lemma trim_spec s : AdminPage.trimOf s (trim s).
Proof.
  unfold AdminPage.trimOf, trim, trimEnd.
  destruct (trimStart_spec s) as (before & Hs & Hbefore & Hhead).
  destruct (trimStart_spec (reverse (trimStart s)))
    as (after & Hr & Hafter & Hlast).
  set (m := trimStart s) in *.
  set (t := trimStart (reverse m)) in *.
  assert (Hm : m = reverse t ++ reverse after).
  { rewrite <- reverse_app, <- Hr. by rewrite reverse_involutive. }
  exists before, (reverse after). repeat split.
  - by rewrite <- Hm.
  - done.
  - by apply Forall_reverse.
  - intros c Hc. apply Hhead. rewrite Hm.
    destruct (reverse t); [done|]. done.
  - intros c Hc. apply Hlast. by rewrite last_reverse in Hc.
Qed.

(** And it is the only text that is what the specification means by the
    trimmed line. *)
Lemma trim_unique line trimmed :
  AdminPage.trimOf line trimmed -> trim line = trimmed.
Proof.
  intros (before & after & -> & Hbefore & Hafter & Hhead & Hlast).
  unfold trim, trimEnd. rewrite trimStart_app_trimmed by done.
  destruct trimmed as [|c trimmed].
  - simpl. rewrite (trimStart_all_trimmed after) by done. done.
  - rewrite (trimStart_id ((c :: trimmed) ++ after)) by (simpl; intros ? [= <-]; by apply Hhead).
    rewrite reverse_app, trimStart_app_trimmed by by apply Forall_reverse.
    rewrite trimStart_id; [by rewrite reverse_involutive|].
    intros c'. rewrite head_reverse. apply Hlast.
Qed.

End StringFacts.

Section AdminFacts.

Import JsString AdminPage.

(** Every text has lines, and every line a trimmed form. *)
Lemma lines_exist s :
  linesOf s (split LF s) /\
  Forall2 trimOf (split LF s) (map trim (split LF s)).
Proof.
  split; [split; [apply join_split | apply split_no_sep]|].
  induction (split LF s); constructor; [apply trim_spec | done].
Qed.

Lemma trimmed_unique lines trimmed :
  Forall2 trimOf lines trimmed -> map trim lines = trimmed.
Proof.
  induction 1 as [|line t lines trimmed Ht _ IH]; simpl; [done|].
  by rewrite (trim_unique line t Ht), IH.
Qed.

Lemma filter_length_nonempty (l : list JsString.t) :
  List.filter (fun url => (0 <? length url)%nat) l
  = filter (fun url => url <> []) l.
Proof.
  induction l as [|url l IH]; simpl; [done|].
  rewrite filter_cons, IH. by destruct url.
Qed.

(** The list the page computes is the one the specification describes,
    whichever way its lines and their trimmed forms are arrived at. *)
Lemma urlsToCrawl_spec a lines trimmed :
  linesOf (urls a) lines ->
  Forall2 trimOf lines trimmed ->
  urlsToCrawl a = filter (fun url => url <> []) trimmed.
Proof.
  intros [Hjoin Hno] Htrim. unfold urlsToCrawl.
  rewrite filter_length_nonempty.
  destruct (decide (lines = [])) as [->|Hnil].
  - apply Forall2_nil_inv_l in Htrim as ->. simpl in Hjoin.
    by rewrite <- Hjoin.
  - rewrite <- Hjoin, split_unique by done.
    by rewrite (trimmed_unique lines trimmed Htrim).
Qed.

(** C10. Take the lines of the text area, trim each, and drop the empty
    ones. If nothing is left, submitting sends nothing and the page's error
    message is the request for at least one url, which the form renders;
    otherwise it sends one crawl request whose urls are exactly what is
    left, in order. *)
Theorem handleSubmit_sends_trimmed_lines (a : Admin)
    (lines trimmed : list JsString.t) :
  linesOf (urls a) lines ->
  Forall2 trimOf lines trimmed ->
  let kept := filter (fun url => url <> []) trimmed in
  match kept with
  | [] =>
      snd (handleSubmit a) = [] /\
      errorMessage (fst (handleSubmit a)) = Some NoUrl /\
      Form.StatusMessage (errorMessage (fst (handleSubmit a))) = Some NoUrl /\
      urls (fst (handleSubmit a)) = urls a /\
      isPending (fst (handleSubmit a)) = isPending a
  | _ :: _ =>
      snd (handleSubmit a) = [TriggerCrawl {| payload_urls := kept |}]
  end.
Proof.
  intros Hlines Htrim. simpl.
  unfold handleSubmit.
  rewrite (urlsToCrawl_spec a lines trimmed Hlines Htrim).
  by destruct (filter _ trimmed).
Qed.

Lemma handleSubmit_sends_trimmed_lines_witness :
  let a := {| urls := [97; 10; 10; 32; 98; 32; 10]%N; successMessage := None;
              errorMessage := None; isPending := false |} in
  let lines := [[97]; []; [32; 98; 32]; []]%N in
  let trimmed := [[97]; []; [98]; []]%N in
  linesOf (urls a) lines /\
  Forall2 trimOf lines trimmed /\
  snd (handleSubmit a) = [TriggerCrawl {| payload_urls := [[97]; [98]]%N |}].
Proof.
  simpl.
  assert (Hlines : linesOf [97; 10; 10; 32; 98; 32; 10]%N
                           [[97]; []; [32; 98; 32]; []]%N).
  { split; [reflexivity|]. apply (bool_decide_unpack _). by vm_compute. }
  assert (Htrim : Forall2 trimOf [[97]; []; [32; 98; 32]; []]%N
                                 [[97]; []; [98]; []]%N).
  { repeat constructor.
    - exists [], []. repeat split; try constructor; by intros ? [= <-].
    - exists [], []. repeat split; try constructor; done.
    - exists [32%N], [32%N]. repeat split; try (repeat constructor; done);
        by intros ? [= <-].
    - exists [], []. repeat split; try constructor; done. }
  split; [exact Hlines|]. split; [exact Htrim|].
  exact (handleSubmit_sends_trimmed_lines
           {| urls := [97; 10; 10; 32; 98; 32; 10]%N; successMessage := None;
              errorMessage := None; isPending := false |}
           [[97]; []; [32; 98; 32]; []]%N [[97]; []; [98]; []]%N Hlines Htrim).
Defined.

End AdminFacts.

(* ===================================================================== *)
(** * Further properties of the session *)
(* ===================================================================== *)

Section MoreSessionFacts.

Import SessionMachine Notions.

Lemma truthy_is_Some o : truthy o = true -> is_Some o.
Proof. destruct o; [by eexists | done]. Qed.

Lemma holds_token_apply v op s :
  (isAuthenticated s = true -> is_Some (storedToken s)) ->
  isAuthenticated (apply v s op) = true -> is_Some (storedToken (apply v s op)).
Proof.
  intros Hs. destruct op as [api|api payload|api payload| |]; simpl; try done.
  - destruct v; simpl.
    + unfold AuthProvider.checkAuthStatus.
      destruct (truthy _) eqn:Htok; [|exact Hs].
      destruct (getMe api _); simpl; [|done].
      intros _. by apply truthy_is_Some.
    + unfold AuthProviderDummy.startup.
      destruct (truthy _) eqn:Htok; [|exact Hs].
      intros _. by apply truthy_is_Some.
  - destruct v; simpl.
    + unfold AuthProvider.login, AuthProvider.login_catch.
      destruct (Api.login api payload) as [tokenData|e].
      * destruct (getMe api _) as [u|e]; simpl.
        -- intros _. unfold storedToken; simpl. rewrite lookup_insert_eq. by eexists.
        -- by destruct (isResponseErrorWithStatus 401 e).
      * by destruct (isResponseErrorWithStatus 401 e).
    + unfold AuthProviderDummy.login, AuthProviderDummy.saveAuthData.
      destruct (Api.login api payload) as [tokenData|e]; simpl.
      * intros _. unfold storedToken; simpl. rewrite lookup_insert_eq. by eexists.
      * by destruct (isResponseErrorWithStatus 401 e).
Qed.

(** As long as no two calls of the provider overlap, each running to its
    end before the next begins, an authenticated session has a token in
    storage: whatever operations a provider of either version has gone
    through one after the other since its first render, if
    [isAuthenticated] is true then something is stored under the key. (A
    logout that falls into a suspended [login] breaks this, see below.) *)
Theorem authenticated_holds_token (v : Version) (stored : gmap string string)
    (ops : list Op) :
  let s := run v ops (initial stored) in
  isAuthenticated s = true -> is_Some (storedToken s).
Proof.
  simpl. unfold run.
  assert (H0 : isAuthenticated (initial stored) = true ->
               is_Some (storedToken (initial stored))) by done.
  revert H0. generalize (initial stored) as s.
  induction ops as [|op ops IH]; intros s Hs; simpl; [done|].
  apply IH. by apply holds_token_apply.
Qed.

Lemma authenticated_holds_token_witness :
  let ops := [Startup Examples.server;
              Login Examples.server {| lp_username := "bob"; lp_password := "x" |}] in
  let s := run GetMeLookup ops (initial ∅) in
  isAuthenticated s = true /\ is_Some (storedToken s).
Proof.
  simpl. split; [reflexivity|].
  apply (authenticated_holds_token GetMeLookup ∅
           [Startup Examples.server;
            Login Examples.server {| lp_username := "bob"; lp_password := "x" |}]).
  reflexivity.
Defined.

Lemma isLoading_apply v op s :
  isLoading (apply v s op) = isLoading s && negb (isStartup op).
Proof.
  destruct op as [api|api payload|api payload| |]; simpl;
    rewrite ?andb_true_r, ?andb_false_r; try done.
  - by destruct v.
  - destruct v; simpl.
    + unfold AuthProvider.login, AuthProvider.login_catch.
      destruct (Api.login api payload) as [tokenData|e].
      * destruct (getMe api _) as [u|e]; simpl; [done|].
        by destruct (isResponseErrorWithStatus 401 e).
      * by destruct (isResponseErrorWithStatus 401 e).
    + unfold AuthProviderDummy.login.
      destruct (Api.login api payload) as [tokenData|e]; simpl; [done|].
      by destruct (isResponseErrorWithStatus 401 e).
Qed.

(** [isLoading] is true from the first render until the start-up check has
    run and false ever after: no login, registration or logout touches it. *)
Theorem isLoading_until_startup (v : Version) (stored : gmap string string)
    (ops : list Op) :
  isLoading (run v ops (initial stored)) = negb (existsb isStartup ops).
Proof.
  unfold run.
  change (negb (existsb isStartup ops))
    with (isLoading (initial stored) && negb (existsb isStartup ops)).
  generalize (initial stored) as s.
  induction ops as [|op ops IH]; intros s; simpl.
  - by rewrite andb_true_r.
  - rewrite IH, isLoading_apply.
    destruct (isStartup op); simpl; [by rewrite andb_false_r|].
    by rewrite andb_true_r.
Qed.

(** [logout] removes the token and nothing else from storage, so that the
    next request carries the empty token, and doing it again changes
    nothing. *)
Theorem logout_clears_only_the_token (s : Session) :
  accessToken (localStorage (logout s)) = "" /\
  (forall k, k <> JWT_STORAGE_KEY ->
             localStorage (logout s) !! k = localStorage s !! k) /\
  logout (logout s) = logout s.
Proof.
  split; [|split].
  - unfold accessToken; simpl. by rewrite lookup_delete_eq.
  - intros k Hk. simpl. by rewrite lookup_delete_ne.
  - unfold logout; simpl. by rewrite delete_delete_eq.
Qed.

(** A failure of the login call that is not a 401 reaches the caller as it
    is, in either version. *)
Theorem login_other_errors_pass_through (v : Version) (api : AuthApi)
    (payload : LoginPayload) (s : Session) (e : Thrown) :
  Api.login api payload = Throw e ->
  isResponseErrorWithStatus 401 e = false ->
  snd (login v api payload s) = Throw e.
Proof.
  intros Hlogin He. destruct v; simpl.
  - unfold AuthProvider.login, AuthProvider.login_catch. by rewrite Hlogin, He.
  - unfold AuthProviderDummy.login. by rewrite Hlogin, He.
Qed.

Lemma login_other_errors_pass_through_witness :
  Api.login serverDown {| lp_username := "bob"; lp_password := "x" |}
    = Throw unreachable /\
  isResponseErrorWithStatus 401 unreachable = false /\
  snd (login DummyUser serverDown {| lp_username := "bob"; lp_password := "x" |}
         Examples.fresh) = Throw unreachable.
Proof.
  split; [reflexivity|]. split; [reflexivity|].
  apply (login_other_errors_pass_through DummyUser serverDown
           {| lp_username := "bob"; lp_password := "x" |} Examples.fresh unreachable);
    reflexivity.
Defined.

(** The identity lookup of [login] is made with the token just issued:
    what was stored before has no influence on how [login] ends nor on the
    token, the user and the status it leaves. *)
Theorem login_ignores_the_previous_token (api : AuthApi) (payload : LoginPayload)
    (s1 s2 : Session) :
  let '(s1', r1) := AuthProvider.login api payload s1 in
  let '(s2', r2) := AuthProvider.login api payload s2 in
  r1 = r2 /\
  storedToken s1' = storedToken s2' /\
  user s1' = user s2' /\
  isAuthenticated s1' = isAuthenticated s2'.
Proof.
  unfold AuthProvider.login, AuthProvider.login_catch.
  destruct (Api.login api payload) as [tokenData|e].
  - rewrite !accessToken_setItem.
    destruct (getMe api (token tokenData)) as [u|e].
    + repeat split. unfold storedToken; simpl. by rewrite !lookup_insert_eq.
    + destruct (isResponseErrorWithStatus 401 e); repeat split;
        by rewrite !logout_no_token.
  - destruct (isResponseErrorWithStatus 401 e); repeat split;
      by rewrite !logout_no_token.
Qed.

(** With no token stored, or an empty one, neither version consults the
    collaborator at start-up: the session only stops loading. *)
Theorem startup_without_usable_token (v : Version) (api : AuthApi) (s : Session) :
  truthy (storedToken s) = false ->
  startup v api s = setIsLoading false s.
Proof.
  unfold storedToken. intros Htok. destruct v; simpl.
  - unfold AuthProvider.checkAuthStatus. by rewrite Htok.
  - unfold AuthProviderDummy.startup. by rewrite Htok.
Qed.

Lemma startup_without_usable_token_witness :
  let s := initial {[ JWT_STORAGE_KEY := "" ]} in
  truthy (storedToken s) = false /\
  startup GetMeLookup Examples.server s = setIsLoading false s.
Proof.
  simpl. split; [reflexivity|].
  apply (startup_without_usable_token GetMeLookup Examples.server
           (initial {[ JWT_STORAGE_KEY := "" ]})).
  reflexivity.
Defined.

(** Running the start-up check a second time against the same collaborator
    changes nothing. *)
Theorem startup_twice (v : Version) (api : AuthApi) (s : Session) :
  startup v api (startup v api s) = startup v api s.
Proof.
  destruct v; simpl.
  - unfold AuthProvider.checkAuthStatus.
    destruct (truthy (localStorage s !! JWT_STORAGE_KEY)) eqn:Htok; simpl.
    + destruct (getMe api (accessToken (localStorage s))) as [u|e] eqn:Hme; simpl.
      * by rewrite Htok, Hme.
      * by rewrite lookup_delete_eq.
    + by rewrite Htok.
  - unfold AuthProviderDummy.startup.
    destruct (truthy (localStorage s !! JWT_STORAGE_KEY)) eqn:Htok; simpl;
      by rewrite Htok.
Qed.

(** A failed [login] of the version with the identity lookup leaves an
    anonymous session and no token, whatever failed (the login call or the
    lookup, with a 401 or otherwise) and whatever the session was. *)
Theorem failed_login_logs_out (api : AuthApi) (payload : LoginPayload)
    (s : Session) :
  snd (AuthProvider.login api payload s) <> Ok tt ->
  let s' := fst (AuthProvider.login api payload s) in
  Anonymous s' /\ storedToken s' = None /\ accessToken (localStorage s') = "".
Proof.
  destruct (AuthProvider.login api payload s) as [s' [[]|e]] eqn:Hlogin; [done|].
  intros _. simpl.
  destruct (login_getMe_failure _ _ _ _ _ Hlogin) as [Hanon Htok].
  split; [done|]. split; [done|].
  unfold accessToken. unfold storedToken in Htok. by rewrite Htok.
Qed.

Lemma failed_login_logs_out_witness :
  let payload := {| lp_username := "bob"; lp_password := "wrong" |} in
  snd (AuthProvider.login Examples.server payload Examples.withStaleToken) <> Ok tt /\
  let s' := fst (AuthProvider.login Examples.server payload Examples.withStaleToken) in
  Anonymous s' /\ storedToken s' = None /\ accessToken (localStorage s') = "".
Proof.
  assert (Hfail : snd (AuthProvider.login Examples.server
                         {| lp_username := "bob"; lp_password := "wrong" |}
                         Examples.withStaleToken) <> Ok tt) by discriminate.
  split; [exact Hfail|].
  exact (failed_login_logs_out Examples.server
           {| lp_username := "bob"; lp_password := "wrong" |}
           Examples.withStaleToken Hfail).
Defined.

Lemma suspended_login_alone api payload s :
  Suspended.login api payload Suspended.undisturbed Suspended.undisturbed s = AuthProvider.login api payload s.
Proof. reflexivity. Qed.

Lemma suspended_checkAuthStatus_alone api s :
  Suspended.checkAuthStatus api Suspended.undisturbed s = AuthProvider.checkAuthStatus api s.
Proof.
  unfold Suspended.checkAuthStatus, AuthProvider.checkAuthStatus.
  destruct (truthy _); [|done]. by destruct (getMe api _).
Qed.

Lemma suspended_login_returns api payload during1 during2 s tokenData userInfo :
  Api.login api payload = Ok tokenData ->
  getMe api (token tokenData) = Ok userInfo ->
  Suspended.login api payload during1 during2 s
  = (setAuthenticated userInfo
       (during2 (setItem JWT_STORAGE_KEY (token tokenData) (during1 s))), Ok tt).
Proof.
  intros Hlogin Hme. unfold Suspended.login.
  by rewrite Hlogin, accessToken_setItem, Hme.
Qed.

(** When [login] of the version with the identity lookup returns normally,
    the session is authenticated as the user the collaborator names for the
    token the login call issued, whatever other calls did to the session
    while [login] was suspended. *)
Theorem successful_login_is_the_looked_up_user (api : AuthApi)
    (payload : LoginPayload) (duringLogin duringLookup : Session -> Session)
    (s : Session) :
  snd (Suspended.login api payload duringLogin duringLookup s) = Ok tt ->
  let s' := fst (Suspended.login api payload duringLogin duringLookup s) in
  exists tokenData u,
    Api.login api payload = Ok tokenData /\
    getMe api (token tokenData) = Ok u /\
    user s' = Some u /\
    isAuthenticated s' = true.
Proof.
  unfold Suspended.login, AuthProvider.login_catch.
  destruct (Api.login api payload) as [tokenData|e] eqn:Hlogin.
  - rewrite accessToken_setItem.
    destruct (getMe api (token tokenData)) as [u|e] eqn:Hme; simpl.
    + intros _. by exists tokenData, u.
    + by destruct (isResponseErrorWithStatus 401 e).
  - by destruct (isResponseErrorWithStatus 401 e).
Qed.

Lemma successful_login_is_the_looked_up_user_witness :
  let payload := {| lp_username := "bob"; lp_password := "x" |} in
  snd (Suspended.login Examples.server payload Suspended.undisturbed logout Examples.fresh) = Ok tt /\
  let s' := fst (Suspended.login Examples.server payload Suspended.undisturbed logout Examples.fresh) in
  exists tokenData u,
    Api.login Examples.server payload = Ok tokenData /\
    getMe Examples.server (token tokenData) = Ok u /\
    user s' = Some u /\
    isAuthenticated s' = true.
Proof.
  split; [reflexivity|].
  exact (successful_login_is_the_looked_up_user Examples.server
           {| lp_username := "bob"; lp_password := "x" |} Suspended.undisturbed logout
           Examples.fresh eq_refl).
Defined.

(** A logout that falls into the identity lookup of a [login] does not
    stop it: when the lookup succeeds [login] ends authenticated all the
    same, with nothing stored under the key, so that the next request
    carries the empty token. *)
Theorem logout_during_login_is_overridden (api : AuthApi)
    (payload : LoginPayload) (duringLogin : Session -> Session) (s : Session)
    (tokenData : AuthToken) (userInfo : User) :
  Api.login api payload = Ok tokenData ->
  getMe api (token tokenData) = Ok userInfo ->
  let '(s', r) := Suspended.login api payload duringLogin logout s in
  r = Ok tt /\
  isAuthenticated s' = true /\
  user s' = Some userInfo /\
  storedToken s' = None /\
  accessToken (localStorage s') = "".
Proof.
  intros Hlogin Hme.
  rewrite (suspended_login_returns _ _ _ _ _ _ _ Hlogin Hme).
  repeat split.
  - apply lookup_delete_eq.
  - unfold accessToken; simpl. by rewrite lookup_delete_eq.
Qed.

Lemma logout_during_login_is_overridden_witness :
  let payload := {| lp_username := "bob"; lp_password := "x" |} in
  Api.login Examples.server payload
    = Ok {| token := "t-bob"; tokenType := "Bearer" |} /\
  getMe Examples.server "t-bob" = Ok Examples.bob /\
  let '(s', r) := Suspended.login Examples.server payload Suspended.undisturbed logout Examples.fresh in
  r = Ok tt /\
  isAuthenticated s' = true /\
  user s' = Some Examples.bob /\
  storedToken s' = None /\
  accessToken (localStorage s') = "".
Proof.
  split; [reflexivity|]. split; [reflexivity|].
  exact (logout_during_login_is_overridden Examples.server
           {| lp_username := "bob"; lp_password := "x" |} Suspended.undisturbed Examples.fresh
           {| token := "t-bob"; tokenType := "Bearer" |} Examples.bob
           eq_refl eq_refl).
Defined.

(** The start-up check of the version with the identity lookup, whatever
    other calls do to the session while its lookup is outstanding. It ends
    with [isLoading] false. With no token stored, or an empty one, it does
    nothing else and consults nobody. With a token, a lookup that succeeds
    leaves the session authenticated as the user it names, the storage as
    the other calls left it; a lookup that fails in any way leaves the
    session anonymous and removes what is stored under the key, and nothing
    else. *)
Theorem startup_check_resolves (api : AuthApi) (duringLookup : Session -> Session)
    (s : Session) :
  let s' := Suspended.checkAuthStatus api duringLookup s in
  isLoading s' = false /\
  match storedToken s with
  | None => s' = setIsLoading false s
  | Some t =>
      if String.eqb t "" then s' = setIsLoading false s
      else match getMe api t with
           | Ok userInfo =>
               isAuthenticated s' = true /\ user s' = Some userInfo /\
               localStorage s' = localStorage (duringLookup s)
           | Throw _ =>
               Anonymous s' /\ storedToken s' = None /\
               forall k, k <> JWT_STORAGE_KEY ->
                 localStorage s' !! k = localStorage (duringLookup s) !! k
           end
  end.
Proof.
  unfold Suspended.checkAuthStatus, accessToken, storedToken; simpl.
  destruct (localStorage s !! JWT_STORAGE_KEY) as [t|] eqn:Ht; simpl.
  - destruct (String.eqb t ""); simpl; [done|].
    destruct (getMe api t); simpl; [done|].
    split; [done|]. split; [done|]. split; [apply lookup_delete_eq|].
    intros k Hk. by apply lookup_delete_ne.
  - done.
Qed.

End MoreSessionFacts.

(* ===================================================================== *)
(** * Properties of the login and registration pages *)
(* ===================================================================== *)

Section PageFacts.

Import SessionMachine Notions.

(** [trim] leaves nothing exactly when there is nothing but white space. *)
Lemma trim_nil_iff s :
  JsString.trim s = [] <-> Forall (fun c => JsString.isTrimmed c = true) s.
Proof.
  split.
  - intros Hnil.
    destruct (trim_spec s) as (before & after & Hs & Hbefore & Hafter & _).
    rewrite Hnil in Hs. rewrite Hs. apply Forall_app. by split.
  - intros Hall. apply trim_unique.
    exists s, []. rewrite !app_nil_r. by repeat split.
Qed.

Lemma trim_visible_iff s :
  JsString.trim s <> [] <-> hasVisibleCharacter s.
Proof.
  rewrite trim_nil_iff. unfold hasVisibleCharacter. split.
  - intros Hnot. apply (not_Forall_Exists _) in Hnot.
    apply Exists_exists in Hnot as (c & Hc & Hvis).
    exists c. split; [done|]. simpl in Hvis.
    destruct (JsString.isTrimmed c); [by destruct Hvis | done].
  - intros (c & Hc & Hvis) Hall.
    rewrite Forall_forall in Hall. specialize (Hall c Hc). congruence.
Qed.

Lemma isFormValid_visible (username password : JsString.t) :
  LoginPage.isFormValid username password = true <->
  hasVisibleCharacter username /\ hasVisibleCharacter password.
Proof.
  unfold LoginPage.isFormValid. rewrite <- !trim_visible_iff.
  destruct (JsString.trim username), (JsString.trim password); simpl;
    (split; [intros H; try discriminate H; by split | intros [H1 H2]; congruence]).
Qed.

(** The form counts as filled in exactly when the user name and the
    password each contain a character that is not white space. *)
Theorem isFormValid_iff (username password : JsString.t) :
  LoginPage.isFormValid username password = true <->
  hasVisibleCharacter username /\ hasVisibleCharacter password.
Proof. apply isFormValid_visible. Qed.

(** The submit button of the login and registration forms can be pressed
    exactly when no submission is under way and both fields hold something
    other than white space. *)
Theorem submit_enabled_iff (isSubmitting : bool) (username password : JsString.t) :
  Form.submitDisabled isSubmitting (LoginPage.isFormValid username password) = false
  <->
  isSubmitting = false /\
  hasVisibleCharacter username /\ hasVisibleCharacter password.
Proof.
  rewrite <- isFormValid_visible. unfold Form.submitDisabled.
  destruct isSubmitting, (LoginPage.isFormValid username password); simpl;
    intuition congruence.
Qed.




Lemma orElse_not_empty a b : b <> "" -> RegisterPage.orElse a b <> "".
Proof.
  intros Hb. unfold RegisterPage.orElse.
  by destruct (String.eqb_spec a "").
Qed.

Lemma errorMessageOf_response_not_empty response message :
  RegisterPage.errorMessageOf (ResponseError response message) <> "".
Proof.
  simpl.
  destruct (Api.status response =? 409); [done|].
  destruct (Api.status response =? 400).
  - destruct (text response); [by apply orElse_not_empty | done].
  - destruct (Api.status response =? 401); [done|].
    by apply orElse_not_empty.
Qed.

(** Whatever response the server refused a registration with, the
    registration page has a message to show for it: the text chosen for a
    [ResponseError] is never empty, so [StatusMessage] renders it. *)
Theorem register_page_shows_every_response_error (response : Response)
    (message : string) (p : RegisterPage.Page) :
  let p' := RegisterPage.handleSubmit_catch (ResponseError response message) p in
  exists shown,
    Form.StatusMessage (RegisterPage.error p') = Some shown /\ shown <> "".
Proof.
  pose proof (errorMessageOf_response_not_empty response message) as Hm.
  cbn -[RegisterPage.errorMessageOf].
  exists (RegisterPage.errorMessageOf (ResponseError response message)).
  split; [|done].
  by destruct (String.eqb_spec
                 (RegisterPage.errorMessageOf (ResponseError response message)) "").
Qed.

(** When registration fails the automatic login is not attempted: the
    outcome is the same whatever [login] would have done, the session is
    untouched, nothing is navigated to and no success note is shown. *)
Theorem register_failure_skips_login
    (login1 login2 : AuthApi -> LoginPayload -> Session -> Session * Result unit)
    (api : AuthApi) (username password : string) (s : Session)
    (p : RegisterPage.Page) (err : Thrown) :
  Api.register api {| rp_username := username; rp_password := password |}
    = Throw err ->
  RegisterPage.handleSubmit AuthCommon.register login1 api username password s p
  = RegisterPage.handleSubmit AuthCommon.register login2 api username password s p
  /\
  let '(s', p', effects) :=
    RegisterPage.handleSubmit AuthCommon.register login1 api username password s p in
  s' = s /\ effects = [] /\ RegisterPage.successMessage p' = None /\
  RegisterPage.error p' = Some (RegisterPage.errorMessageOf err) /\
  RegisterPage.isSubmitting p' = false.
Proof.
  intros Hreg. unfold RegisterPage.handleSubmit; simpl. by rewrite Hreg.
Qed.

Lemma register_failure_skips_login_witness :
  Api.register Examples.server {| rp_username := "bob"; rp_password := "x" |}
    = Throw (ResponseError {| Api.status := 409; text := Some "" |}
               "Response returned an error code") /\
  let '(s', p', effects) :=
    RegisterPage.handleSubmit AuthCommon.register (login GetMeLookup)
      Examples.server "bob" "x" Examples.fresh Examples.blankPage in
  s' = Examples.fresh /\ effects = [] /\
  RegisterPage.error p' = Some RegisterPage.UsernameTaken.
Proof.
  split; [reflexivity|].
  pose proof (register_failure_skips_login (login GetMeLookup) (login DummyUser)
                Examples.server "bob" "x" Examples.fresh Examples.blankPage
                _ eq_refl) as [_ H].
  revert H.
  destruct (RegisterPage.handleSubmit _ _ _ _ _ _ _) as [[s' p'] effects].
  intros (Hs & He & _ & Herr & _). by rewrite Herr.
Defined.

(** When registration, the login call and the identity lookup all
    succeed, the page navigates home with the session authenticated as the
    user the lookup names, whatever other calls did to the session while
    [login] was suspended. *)
Theorem register_then_login (api : AuthApi) (username password : string)
    (duringLogin duringLookup : Session -> Session)
    (s : Session) (p : RegisterPage.Page) (registered : User)
    (tokenData : AuthToken) (userInfo : User) :
  Api.register api {| rp_username := username; rp_password := password |}
    = Ok registered ->
  Api.login api {| lp_username := username; lp_password := password |}
    = Ok tokenData ->
  getMe api (token tokenData) = Ok userInfo ->
  let '(s', p', effects) :=
    RegisterPage.handleSubmit AuthCommon.register
      (fun api payload => Suspended.login api payload duringLogin duringLookup)
      api username password s p in
  effects = [RegisterPage.Navigate "/"] /\
  user s' = Some userInfo /\ isAuthenticated s' = true /\
  RegisterPage.error p' = None /\
  RegisterPage.successMessage p' = Some RegisterPage.Registered.
Proof.
  intros Hreg Hlogin Hme. unfold RegisterPage.handleSubmit; simpl.
  by rewrite Hreg, (suspended_login_returns _ _ _ _ _ _ _ Hlogin Hme).
Qed.

Lemma register_then_login_witness :
  Api.register welcoming {| rp_username := "bob"; rp_password := "x" |}
    = Ok Examples.bob /\
  Api.login welcoming {| lp_username := "bob"; lp_password := "x" |}
    = Ok {| token := "t-bob"; tokenType := "Bearer" |} /\
  getMe welcoming "t-bob" = Ok Examples.bob /\
  let '(s', p', effects) :=
    RegisterPage.handleSubmit AuthCommon.register
      (fun api payload =>
         Suspended.login api payload Suspended.undisturbed logout)
      welcoming "bob" "x" Examples.fresh Examples.blankPage in
  effects = [RegisterPage.Navigate "/"] /\
  user s' = Some Examples.bob /\ isAuthenticated s' = true /\
  RegisterPage.error p' = None /\
  RegisterPage.successMessage p' = Some RegisterPage.Registered.
Proof.
  split; [reflexivity|]. split; [reflexivity|]. split; [reflexivity|].
  apply (register_then_login welcoming "bob" "x" Suspended.undisturbed logout
           Examples.fresh Examples.blankPage
           Examples.bob {| token := "t-bob"; tokenType := "Bearer" |} Examples.bob);
    reflexivity.
Defined.

End PageFacts.

(* ===================================================================== *)
(** * Properties of the route table *)
(* ===================================================================== *)

Section RouteFacts.

Import App.

(** Whatever the session, every route settles after at most one redirect:
    the two redirects of the table never chase each other. What is rendered
    in the end is a protected page only for a session that is authenticated
    and has finished loading, and the login or registration page only for
    one that is not authenticated. *)
Theorem routes_settle (s : Session) (route : Route) :
  exists element,
    settle 1 s route = Some element /\
    (protected element = true ->
     isAuthenticated s = true /\ isLoading s = false) /\
    (public element = true -> isAuthenticated s = false).
Proof.
  unfold settle, AppRoutes, ProtectedRoute.
  destruct route, (isLoading s), (isAuthenticated s); simpl;
    eexists; (split; [reflexivity|]); split; simpl; intros; try done.
Qed.

End RouteFacts.

(* ===================================================================== *)
(** * Further properties of the home page *)
(* ===================================================================== *)

Section MoreHomeFacts.

Import HomePage Notions.

Lemma fetch_shape answers : forall failureCount r n,
  fetch failureCount answers = Some (r, n) ->
  exists k, n = S k /\
    answers !! k = Some r /\
    (forall i a, (i < k)%nat -> answers !! i = Some a ->
                 isFailure a = true /\ isNotFound a = false) /\
    (isFailure r = true -> isNotFound r = false ->
     3 <= failureCount + Z.of_nat k) /\
    ((0 < k)%nat -> failureCount + Z.of_nat k <= 3).
Proof.
  induction answers as [|a answers IH]; intros failureCount r n; simpl; [done|].
  destruct a as [p|e].
  - intros [= <- <-]. exists 0%nat. repeat split; try done; intros; lia.
  - unfold retry at 1.
    destruct (isResponseErrorWithStatus 404 e) eqn:H404.
    + intros [= <- <-]. exists 0%nat. repeat split; try done; try (intros; lia).
      simpl. by rewrite H404.
    + destruct (Z.ltb_spec failureCount 3) as [Hlt|Hge].
      * destruct (fetch (failureCount + 1) answers) as [[r' n']|] eqn:Hrest; [|done].
        intros [= <- <-].
        destruct (IH _ _ _ Hrest) as (k & -> & Hk & Hearlier & Hgave & Hbound).
        exists (S k). split; [done|]. split; [done|]. split; [|split].
        -- intros [|i] a Hi; simpl.
           ++ intros [= <-]. simpl. by rewrite H404.
           ++ apply Hearlier. lia.
        -- intros Hf Hn. specialize (Hgave Hf Hn). lia.
        -- intros _. destruct k as [|k]; [lia|].
           assert (0 < S k)%nat as Hpos by lia. specialize (Hbound Hpos). lia.
      * intros [= <- <-]. exists 0%nat. repeat split; try done; intros; lia.
Qed.

(** What a fetch of the next paper amounts to. When it settles after [n]
    requests, its outcome is the answer to the last of them; every earlier
    answer was a failure other than 404; there were at most four requests;
    and if the outcome is itself a failure other than 404, there were
    exactly four: such failures are retried three times, a 404 never. *)
Theorem fetch_retries_three_times (answers : list (Result Paper))
    (r : Result Paper) (n : nat) :
  fetch 0 answers = Some (r, n) ->
  (1 <= n <= 4)%nat /\
  answers !! (n - 1)%nat = Some r /\
  (forall i a, (i < n - 1)%nat -> answers !! i = Some a ->
               isFailure a = true /\ isNotFound a = false) /\
  (isFailure r = true -> isNotFound r = false -> n = 4%nat).
Proof.
  intros Hfetch.
  destruct (fetch_shape _ _ _ _ Hfetch) as (k & -> & Hk & Hearlier & Hgave & Hbound).
  replace (S k - 1)%nat with k by lia.
  assert (k <= 3)%nat.
  { destruct k as [|k]; [lia|].
    assert (0 < S k)%nat as Hpos by lia. specialize (Hbound Hpos). lia. }
  split; [lia|]. split; [done|]. split; [done|].
  intros Hf Hn. specialize (Hgave Hf Hn). lia.
Qed.

Lemma fetch_retries_three_times_witness :
  let down := Throw unreachable in
  fetch 0 [down; down; down; down; Ok Examples.paper7] = Some (down, 4%nat) /\
  (1 <= 4 <= 4)%nat /\
  [down; down; down; down; Ok Examples.paper7] !! (4 - 1)%nat = Some down /\
  (forall i a, (i < 4 - 1)%nat ->
               [down; down; down; down; Ok Examples.paper7] !! i = Some a ->
               isFailure a = true /\ isNotFound a = false) /\
  (isFailure down = true -> isNotFound down = false -> 4%nat = 4%nat).
Proof.
  simpl. split; [reflexivity|].
  apply (fetch_retries_three_times
           [Throw unreachable; Throw unreachable; Throw unreachable;
            Throw unreachable; Ok Examples.paper7] (Throw unreachable) 4).
  reflexivity.
Defined.

(** A decision the collaborator rejects costs nothing but the attempt: the
    paper stays on display, no query is invalidated, the buttons are
    released, and pressing again sends the same request as before. *)
Theorem rejected_decision_can_be_retried (err : Thrown) (variables : Variables)
    (status : PaperStatus) (h : Home) :
  let '(h', effects) := mutationSettled (Throw err) variables h in
  effects = [] /\
  paper h' = paper h /\
  error h' = error h /\
  isMutating h' = false /\
  snd (handleRate status h') = snd (handleRate status h).
Proof.
  simpl. unfold onError.
  destruct (decide (HomePage.status variables = Liked)); simpl;
    repeat split; unfold handleRate; simpl;
    destruct (paper h); simpl; by destruct (decide (status = Liked)).
Qed.

Lemma handleRate_disables_buttons (status : PaperStatus) (h : Home)
    (p : Paper) (starDisabled isLiked nextDisabled : bool) :
  render h = PaperCard p starDisabled isLiked nextDisabled ->
  let '(h', effects) := handleRate status h in
  effects = [SetPaperStatus (Api.id p) status] /\
  render h' = PaperCard p true
                (isLiked || bool_decide (status = Liked)) true.
Proof.
  unfold render, isLoading, isError, isMutating.
  destruct (isFetching h && _) eqn:Hload; [done|].
  destruct (match error h with Some e => _ | None => false end) eqn:H404; [done|].
  destruct (queryStatus h) eqn:Hq; try done;
    destruct (paper h) as [p0|] eqn:Hp; try done;
    intros [= -> <- <- <-];
    unfold handleRate; rewrite Hp; simpl;
    destruct (decide (status = Liked)) as [->|Hne]; simpl;
    rewrite ?Hq, ?Hp, ?H404; simpl;
    rewrite ?andb_false_r, ?orb_true_r, ?orb_false_r; simpl;
    try (rewrite Hload); simpl; rewrite ?Hp; simpl;
    rewrite ?bool_decide_eq_false_2 by done; rewrite ?orb_false_r, ?orb_true_r;
    try done.
Qed.

(** A click on an enabled button of the paper card sends one status
    request for the paper shown, after which the same paper is shown with
    both buttons disabled, and further clicks on either button do nothing:
    the page offers no second decision while one is pending. *)
Theorem buttons_disabled_while_pending (status : PaperStatus) (h : Home)
    (p : Paper) (starDisabled isLiked nextDisabled : bool) :
  render h = PaperCard p starDisabled isLiked nextDisabled ->
  match status with Liked => starDisabled | Read => nextDisabled end = false ->
  let '(h', effects) := PaperCardButtons.click status h in
  effects = [SetPaperStatus (Api.id p) status] /\
  render h' = PaperCard p true
                (isLiked || bool_decide (status = Liked)) true /\
  forall status', PaperCardButtons.click status' h' = (h', []).
Proof.
  intros Hrender Henabled.
  pose proof (handleRate_disables_buttons status h p _ _ _ Hrender) as H.
  unfold PaperCardButtons.click at 1. rewrite Hrender, Henabled.
  destruct (handleRate status h) as [h' effects].
  destruct H as [Heff Hrender'].
  split; [done|]. split; [done|].
  intros status'. unfold PaperCardButtons.click. rewrite Hrender'.
  by destruct status'.
Qed.

Lemma buttons_disabled_while_pending_witness :
  render Examples.showing7 = PaperCard Examples.paper7 false false false /\
  false = false /\
  let '(h', effects) := PaperCardButtons.click Liked Examples.showing7 in
  effects = [SetPaperStatus 7 Liked] /\
  render h' = PaperCard Examples.paper7 true true true /\
  forall status', PaperCardButtons.click status' h' = (h', []).
Proof.
  split; [reflexivity|]. split; [reflexivity|].
  apply (buttons_disabled_while_pending Liked Examples.showing7 Examples.paper7
           false false false); reflexivity.
Defined.

(** A paper that replaces another is never shown as liked: after a fetch
    brings a paper with a different id, or the first paper, the mark is
    off and the star can be pressed. *)
Theorem new_paper_is_not_liked (p' : Paper) (h : Home) :
  Api.id <$> paper h <> Some (Api.id p') ->
  let h' := fetchSettled (Ok p') h in
  isCurrentLiked h' = false /\
  render h' = PaperCard p' (isMutating h) false (isMutating h).
Proof.
  intros Hid. simpl. unfold resetLikedIfChanged. simpl.
  destruct (decide _) as [Heq|_]; [by rewrite <- Heq in Hid|].
  split; [done|]. unfold render, isLoading, isMutating. simpl.
  by rewrite orb_false_r.
Qed.

Lemma new_paper_is_not_liked_witness :
  let h := fst (handleRate Liked Examples.showing7) in
  Api.id <$> paper h <> Some (Api.id Examples.paper8) /\
  isCurrentLiked h = true /\
  isCurrentLiked (fetchSettled (Ok Examples.paper8) h) = false /\
  render (fetchSettled (Ok Examples.paper8) h)
    = PaperCard Examples.paper8 (isMutating h) false (isMutating h).
Proof.
  simpl. split; [discriminate|]. split; [reflexivity|].
  apply (new_paper_is_not_liked Examples.paper8
           (fst (handleRate Liked Examples.showing7))).
  discriminate.
Defined.

End MoreHomeFacts.

(* ===================================================================== *)
(** * Further properties of the admin page *)
(* ===================================================================== *)

Section MoreAdminFacts.

Import JsString AdminPage AdminMutation Notions.

Lemma urlsToCrawl_elem a url :
  url ∈ urlsToCrawl a <->
  url <> [] /\ exists line, url = trim line /\ line ∈ split LF (urls a).
Proof.
  unfold urlsToCrawl. rewrite filter_length_nonempty, list_elem_of_filter.
  change (map trim (split LF (urls a))) with (trim <$> split LF (urls a)).
  by rewrite list_elem_of_fmap.
Qed.

Lemma urlsToCrawl_clean a : Forall cleanUrl (urlsToCrawl a).
Proof.
  apply Forall_forall. intros url [Hne (line & -> & Hline)]%urlsToCrawl_elem.
  destruct (trim_spec line) as (before & after & Hsplit & _ & _ & Hhead & Hlast).
  repeat split; try done.
  pose proof (split_no_sep LF (urls a)) as Hno.
  rewrite Forall_forall in Hno. specialize (Hno line Hline).
  rewrite Hsplit in Hno.
  apply not_elem_of_app in Hno as [_ Hno].
  by apply not_elem_of_app in Hno as [Hno _].
Qed.

(** Every url a crawl request carries is clean: not empty, without a line
    feed, and with no white space at either end; and a request carries at
    least one. *)
Theorem crawl_request_carries_clean_urls (a : Admin) (payload : CrawlPayload) :
  TriggerCrawl payload ∈ snd (handleSubmit a) ->
  payload_urls payload <> [] /\ Forall cleanUrl (payload_urls payload).
Proof.
  unfold handleSubmit, mutate.
  pose proof (urlsToCrawl_clean a) as Hclean.
  destruct (urlsToCrawl a) as [|url more] eqn:Hurls; simpl.
  - by intros ?%not_elem_of_nil.
  - intros [= ->]%list_elem_of_singleton. by split.
Qed.

Lemma crawl_request_carries_clean_urls_witness :
  let payload := {| payload_urls := [[97]; [98]]%N |} in
  TriggerCrawl payload ∈ snd (handleSubmit someAdmin) /\
  payload_urls payload <> [] /\ Forall cleanUrl (payload_urls payload).
Proof.
  simpl.
  assert (Hin : TriggerCrawl {| payload_urls := [[97]; [98]]%N |}
                  ∈ snd (handleSubmit someAdmin)).
  { apply list_elem_of_singleton. reflexivity. }
  split; [exact Hin|].
  exact (crawl_request_carries_clean_urls someAdmin
           {| payload_urls := [[97]; [98]]%N |} Hin).
Defined.

Lemma split_pieces_within (P : N -> Prop) sep s :
  Forall P s -> Forall (Forall P) (split sep s).
Proof.
  induction 1 as [|c s Hc Hs IH]; simpl.
  - by repeat constructor.
  - destruct (c =? sep)%N; [by constructor|].
    destruct (split sep s) as [|piece pieces]; [by repeat constructor|].
    apply Forall_cons in IH as [Hpiece Hpieces].
    constructor; [by constructor | done].
Qed.

(** A text area holding nothing but white space and line breaks is refused
    on the spot: nothing is sent, the page's error message becomes the
    request for at least one url, which the form renders, and the text is
    kept. *)
Theorem blank_input_sends_nothing (a : Admin) :
  Forall (fun c => isTrimmed c = true) (urls a) ->
  snd (handleSubmit a) = [] /\
  errorMessage (fst (handleSubmit a)) = Some NoUrl /\
  Form.StatusMessage (errorMessage (fst (handleSubmit a))) = Some NoUrl /\
  urls (fst (handleSubmit a)) = urls a /\
  isPending (fst (handleSubmit a)) = isPending a.
Proof.
  intros Hblank. unfold handleSubmit.
  assert (Hnone : urlsToCrawl a = []).
  { destruct (urlsToCrawl a) as [|url more] eqn:Hurls; [done|].
    assert (Hin : url ∈ urlsToCrawl a) by (rewrite Hurls; left).
    apply urlsToCrawl_elem in Hin as [Hne (line & -> & Hline)].
    pose proof (split_pieces_within _ LF _ Hblank) as Hpieces.
    rewrite Forall_forall in Hpieces.
    specialize (Hpieces line Hline). by apply trim_nil_iff in Hpieces. }
  by rewrite Hnone.
Qed.

Lemma blank_input_sends_nothing_witness :
  Forall (fun c => isTrimmed c = true) (urls States.blankAdmin) /\
  snd (handleSubmit States.blankAdmin) = [] /\
  errorMessage (fst (handleSubmit States.blankAdmin)) = Some NoUrl /\
  Form.StatusMessage (errorMessage (fst (handleSubmit States.blankAdmin)))
    = Some NoUrl /\
  urls (fst (handleSubmit States.blankAdmin)) = urls States.blankAdmin /\
  isPending (fst (handleSubmit States.blankAdmin)) = isPending States.blankAdmin.
Proof.
  assert (Hblank : Forall (fun c => isTrimmed c = true) (urls States.blankAdmin))
    by (repeat constructor).
  split; [exact Hblank|].
  exact (blank_input_sends_nothing States.blankAdmin Hblank).
Defined.

Lemma trim_clean url : cleanUrl url -> trim url = url.
Proof.
  intros (_ & _ & Hhead & Hlast). apply trim_unique.
  exists [], []. rewrite app_nil_r. by repeat split.
Qed.

Lemma clean_urls_kept sent :
  Forall cleanUrl sent ->
  List.filter (fun url => (0 <? length url)%nat) (map trim sent) = sent.
Proof.
  induction 1 as [|url more Hurl _ IH]; simpl; [done|].
  rewrite (trim_clean url Hurl), IH.
  destruct Hurl as (Hurl & _). by destruct url.
Qed.

(** Cleaning up is idempotent: putting the urls that would be sent back
    into the text area, one per line, and submitting again sends the very
    same urls. *)
Theorem resubmitting_sent_urls (a : Admin) :
  urlsToCrawl (setUrls (join LF (urlsToCrawl a)) a) = urlsToCrawl a.
Proof.
  pose proof (urlsToCrawl_clean a) as Hclean.
  generalize dependent (urlsToCrawl a). intros sent Hclean.
  unfold urlsToCrawl; simpl.
  destruct (decide (sent = [])) as [->|Hne]; [by vm_compute|].
  rewrite split_unique; [by apply clean_urls_kept | done |].
  eapply Forall_impl; [exact Hclean|]. by intros url (_ & Hno & _).
Qed.

(** After a crawl request settles exactly one of the two messages is on
    display, and the form accepts input again. *)
Theorem crawl_settles_with_one_message (payload : CrawlPayload)
    (r : Result unit) (a : Admin) :
  let a' := mutationSettled r (fst (mutate payload a)) in
  isPending a' = false /\
  urls a' = urls a /\
  match r with
  | Ok _ => successMessage a' = Some Started /\ errorMessage a' = None
  | Throw e => successMessage a' = None /\ errorMessage a' = Some (errorMessageOf e)
  end.
Proof. by destruct r as [[]|e]. Qed.

End MoreAdminFacts.

(* ===================================================================== *)
(** * The session and the route table together *)
(* ===================================================================== *)

Section SessionRouteFacts.

Import App SessionMachine.

(** Logging out of a loaded application sends every protected page to the
    login page. *)
Theorem logout_leads_to_login (s : Session) (route : Route) :
  isLoading s = false ->
  route ∈ [HomeRoute; LikedRoute; AdminRoute] ->
  settle 1 (logout s) route = Some LoginPageElement.
Proof.
  intros Hl Hroute. unfold settle, AppRoutes, ProtectedRoute. simpl.
  rewrite Hl.
  repeat (apply elem_of_cons in Hroute as [->|Hroute]; [done|]).
  by apply not_elem_of_nil in Hroute.
Qed.

Lemma logout_leads_to_login_witness :
  let s := run GetMeLookup
             [Startup Examples.server;
              Login Examples.server {| lp_username := "bob"; lp_password := "x" |}]
             Examples.fresh in
  isLoading s = false /\
  LikedRoute ∈ [HomeRoute; LikedRoute; AdminRoute] /\
  settle 1 s LikedRoute = Some LikedPapersPageElement /\
  settle 1 (logout s) LikedRoute = Some LoginPageElement.
Proof.
  simpl.
  assert (Hin : LikedRoute ∈ [HomeRoute; LikedRoute; AdminRoute])
    by (right; left).
  split; [reflexivity|]. split; [exact Hin|]. split; [reflexivity|].
  exact (logout_leads_to_login
           (run GetMeLookup
              [Startup Examples.server;
               Login Examples.server {| lp_username := "bob"; lp_password := "x" |}]
              Examples.fresh)
           LikedRoute eq_refl Hin).
Defined.

(** Once a login has succeeded in a loaded application, the login and
    registration routes lead to the home page, with either version of the
    provider. *)
Theorem login_leads_home (v : Version) (api : AuthApi) (payload : LoginPayload)
    (s : Session) (route : Route) :
  isLoading s = false ->
  snd (login v api payload s) = Ok tt ->
  route ∈ [LoginRoute; RegisterRoute; HomeRoute] ->
  settle 1 (fst (login v api payload s)) route = Some HomePageElement.
Proof.
  intros Hl Hok Hroute.
  destruct (login v api payload s) as [s' r] eqn:Hlogin. simpl in *. subst r.
  assert (Hs' : isAuthenticated s' = true /\ isLoading s' = false).
  { destruct v; simpl in Hlogin.
    - unfold AuthProvider.login, AuthProvider.login_catch in Hlogin.
      destruct (Api.login api payload) as [tokenData|e].
      + destruct (getMe api _) as [u|e]; [by injection Hlogin as <-|].
        by destruct (isResponseErrorWithStatus 401 e).
      + by destruct (isResponseErrorWithStatus 401 e).
    - unfold AuthProviderDummy.login in Hlogin.
      destruct (Api.login api payload) as [tokenData|e];
        [by injection Hlogin as <-|].
      by destruct (isResponseErrorWithStatus 401 e). }
  destruct Hs' as [Ha Hl'].
  rewrite !elem_of_cons, elem_of_nil in Hroute.
  destruct Hroute as [->|[->|[->|[]]]]; simpl; unfold ProtectedRoute;
    rewrite ?Ha, ?Hl'; simpl; unfold ProtectedRoute; by rewrite ?Ha, ?Hl'.
Qed.

Lemma login_leads_home_witness :
  let payload := {| lp_username := "bob"; lp_password := "x" |} in
  let s := startup GetMeLookup Examples.server Examples.fresh in
  isLoading s = false /\
  snd (login GetMeLookup Examples.server payload s) = Ok tt /\
  LoginRoute ∈ [LoginRoute; RegisterRoute; HomeRoute] /\
  settle 1 (fst (login GetMeLookup Examples.server payload s)) LoginRoute
    = Some HomePageElement.
Proof.
  simpl.
  assert (Hin : LoginRoute ∈ [LoginRoute; RegisterRoute; HomeRoute]) by left.
  split; [reflexivity|]. split; [reflexivity|]. split; [exact Hin|].
  exact (login_leads_home GetMeLookup Examples.server
           {| lp_username := "bob"; lp_password := "x" |}
           (startup GetMeLookup Examples.server Examples.fresh) LoginRoute
           eq_refl eq_refl Hin).
Defined.

End SessionRouteFacts.
